(** * The browser controller of src/frontend/script.js

    The script is one [DOMContentLoaded] callback that grabs nine elements of
    the page, opens an [EventSource] on [/logs], probes [/status] and installs
    four [submit] handlers.  This file embeds it as follows.

    - Parsed JSON (what [response.json()] and [JSON.parse] return) is the
      inductive [value]; numbers are the integers ([Z]), which is what the
      backend's [pk]s, lengths and flags are.  Fractions are outside the model.
    - A JavaScript completion is [completion]: a value or a thrown [error].
    - The page (the elements the script holds, the event source, the console,
      the requests issued and the errors that reached the host) is the record
      [page]; a piece of script is a function [M A] from a page to a
      completion and the page it leaves behind: what was written before a
      [throw] stays written.
    - An [await] is resolved in place by the outcome the network gives
      ([fetch_outcome]), so a handler is one function of the submitted form
      entries and of that outcome.
    - The host's part (when the user agent calls which callback) is [step]. *)

From stdpp Require Import base gmap strings list pretty.
From Stdlib Require Import ZArith Lia Ascii.

Open Scope string_scope.
Open Scope list_scope.

(** ** JavaScript values and completions *)

#[warnings="-register-all"]
Inductive value : Type :=
  | VUndefined
  | VNull
  | VBool (b : bool)
  | VNum (n : Z)
  | VStr (s : string)
  | VArr (items : list value)
  | VObj (fields : list (string * value)).

Inductive error : Type :=
  | TypeError      (* property of null/undefined, or call of a non-function *)
  | SyntaxError    (* a body or an event payload that is not JSON *)
  | FetchFailed.   (* [fetch] rejected: the request never got a response *)

Inductive completion (A : Type) : Type :=
  | Return (a : A)
  | Throw (e : error).
Arguments Return {A} a.
Arguments Throw {A} e.

Definition cbind {A B} (c : completion A) (k : A -> completion B) : completion B :=
  match c with
  | Return a => k a
  | Throw e => Throw e
  end.

Notation "'let?' x ':=' c 'in' k" := (cbind c (fun x => k))
  (at level 10, x name, c at level 200, k at level 200, only parsing).

(** ToBoolean. *)
Definition truthy (v : value) : bool :=
  match v with
  | VUndefined | VNull => false
  | VBool b => b
  | VNum n => negb (n =? 0)%Z
  | VStr s => negb (String.eqb s "")
  | VArr _ | VObj _ => true
  end.

(** [a === s] against a string literal. *)
Definition strict_eq_str (a : value) (s : string) : bool :=
  match a with
  | VStr s' => String.eqb s' s
  | _ => false
  end.

(** The first binding of [k] in an object as [JSON.parse] built it. *)
Fixpoint field (k : string) (fs : list (string * value)) : value :=
  match fs with
  | [] => VUndefined
  | (k', v) :: rest => if String.eqb k k' then v else field k rest
  end.

(** [o.k] for the named properties the script reads ([status], [message],
    [users], [length], [pk], ...): reading off [null] or [undefined] throws;
    arrays and strings own [length]; everything else answers [undefined]. *)
Definition get (o : value) (k : string) : completion value :=
  match o with
  | VUndefined | VNull => Throw TypeError
  | VObj fs => Return (field k fs)
  | VArr l => Return (if String.eqb k "length" then VNum (Z.of_nat (length l)) else VUndefined)
  | VStr s => Return (if String.eqb k "length" then VNum (Z.of_nat (String.length s)) else VUndefined)
  | VBool _ | VNum _ => Return VUndefined
  end.

(** ToString, as a template literal applies it. *)
Fixpoint ToString (v : value) : string :=
  match v with
  | VUndefined => "undefined"
  | VNull => "null"
  | VBool true => "true"
  | VBool false => "false"
  | VNum n => pretty n
  | VStr s => s
  | VArr l =>
      String.concat ","
        (map (fun x => match x with
                       | VUndefined | VNull => ""
                       | _ => ToString x
                       end) l)
  | VObj _ => "[object Object]"
  end.

(** One element of [Array.prototype.join]: holes read as the empty string. *)
Definition join_item (x : value) : string :=
  match x with
  | VUndefined | VNull => ""
  | _ => ToString x
  end.

(** [a.join(sep)] on an array of values. *)
Definition join (sep : string) (l : list value) : string :=
  String.concat sep (map join_item l).

(** [a.map(f)]: only arrays have it. *)
Fixpoint map_items (f : value -> completion value) (l : list value)
  : completion (list value) :=
  match l with
  | [] => Return []
  | x :: rest =>
      let? y := f x in
      let? ys := map_items f rest in
      Return (y :: ys)
  end.

Definition array_map (a : value) (f : value -> completion value)
  : completion (list value) :=
  match a with
  | VArr l => map_items f l
  | _ => Throw TypeError
  end.

(** [hay.includes(needle)] on strings: [needle] occurs somewhere in [hay]. *)
Fixpoint str_includes (needle hay : string) : bool :=
  String.prefix needle hay ||
  match hay with
  | EmptyString => false
  | String _ rest => str_includes needle rest
  end.

(** [logEntry.includes(needle)]: a string searches for a substring, an array
    for an element; nothing else has the method. *)
Definition includes (logEntry : value) (needle : string) : completion bool :=
  match logEntry with
  | VStr s => Return (str_includes needle s)
  | VArr l => Return (existsb (fun x => strict_eq_str x needle) l)
  | _ => Throw TypeError
  end.

(** What [el.textContent = v] stores: the attribute is a nullable string, so
    [null] and [undefined] clear it. *)
Definition text_of (v : value) : string :=
  match v with
  | VUndefined | VNull => ""
  | _ => ToString v
  end.

(** The double quote, for the markup the script writes. *)
Definition dq : string := String (ascii_of_nat 34) EmptyString.

(** ** The page *)

(** [EventSource.readyState]. *)
Inductive readyState : Type := CONNECTING | OPEN | CLOSED.

(** A [<p>] that [appendLog] created and attached to [logOutput]. *)
Record log_line : Type := LogLine {
  className : string;
  textContent : string
}.

(** A [FormData]: its entry list, in order, names possibly repeated. *)
Definition form_data : Type := list (string * string).

(** One call of [fetch]. *)
Record request : Type := Request {
  url : string;
  method : string;
  body : form_data
}.

Record page : Type := Page {
  loginForm : gset string;            (* classList of #login-form *)
  twoFaSection : gset string;         (* classList of #2fa-section *)
  botActionsSection : gset string;    (* classList of #bot-actions-section *)
  userListOutput : string;            (* innerHTML of #user-list-output *)
  recipientPks : string;              (* value of #recipient-pks *)
  statusText : string;                (* statusMessage.textContent *)
  statusClass : string;               (* statusMessage.className *)
  logOutput : list log_line;          (* children of #log-output *)
  eventSource : readyState;
  console : list string;              (* console.error labels *)
  sent : list request;                (* fetch calls so far *)
  uncaught : list error               (* errors nobody caught *)
}.

Definition set_loginForm (c : gset string) (p : page) : page :=
  Page c (twoFaSection p) (botActionsSection p) (userListOutput p)
       (recipientPks p) (statusText p) (statusClass p) (logOutput p)
       (eventSource p) (console p) (sent p) (uncaught p).

Definition set_twoFaSection (c : gset string) (p : page) : page :=
  Page (loginForm p) c (botActionsSection p) (userListOutput p)
       (recipientPks p) (statusText p) (statusClass p) (logOutput p)
       (eventSource p) (console p) (sent p) (uncaught p).

Definition set_botActionsSection (c : gset string) (p : page) : page :=
  Page (loginForm p) (twoFaSection p) c (userListOutput p)
       (recipientPks p) (statusText p) (statusClass p) (logOutput p)
       (eventSource p) (console p) (sent p) (uncaught p).

Definition set_userListOutput (html : string) (p : page) : page :=
  Page (loginForm p) (twoFaSection p) (botActionsSection p) html
       (recipientPks p) (statusText p) (statusClass p) (logOutput p)
       (eventSource p) (console p) (sent p) (uncaught p).

Definition set_recipientPks (v : string) (p : page) : page :=
  Page (loginForm p) (twoFaSection p) (botActionsSection p) (userListOutput p)
       v (statusText p) (statusClass p) (logOutput p)
       (eventSource p) (console p) (sent p) (uncaught p).

Definition set_status (text cls : string) (p : page) : page :=
  Page (loginForm p) (twoFaSection p) (botActionsSection p) (userListOutput p)
       (recipientPks p) text cls (logOutput p)
       (eventSource p) (console p) (sent p) (uncaught p).

Definition set_logOutput (l : list log_line) (p : page) : page :=
  Page (loginForm p) (twoFaSection p) (botActionsSection p) (userListOutput p)
       (recipientPks p) (statusText p) (statusClass p) l
       (eventSource p) (console p) (sent p) (uncaught p).

Definition set_eventSource (r : readyState) (p : page) : page :=
  Page (loginForm p) (twoFaSection p) (botActionsSection p) (userListOutput p)
       (recipientPks p) (statusText p) (statusClass p) (logOutput p)
       r (console p) (sent p) (uncaught p).

Definition set_console (c : list string) (p : page) : page :=
  Page (loginForm p) (twoFaSection p) (botActionsSection p) (userListOutput p)
       (recipientPks p) (statusText p) (statusClass p) (logOutput p)
       (eventSource p) c (sent p) (uncaught p).

Definition set_sent (s : list request) (p : page) : page :=
  Page (loginForm p) (twoFaSection p) (botActionsSection p) (userListOutput p)
       (recipientPks p) (statusText p) (statusClass p) (logOutput p)
       (eventSource p) (console p) s (uncaught p).

Definition set_uncaught (u : list error) (p : page) : page :=
  Page (loginForm p) (twoFaSection p) (botActionsSection p) (userListOutput p)
       (recipientPks p) (statusText p) (statusClass p) (logOutput p)
       (eventSource p) (console p) (sent p) u.

(** [classList.add('hidden')], [classList.remove('hidden')] and the test the
    style sheet makes. *)
Definition classList_add (c : string) (cl : gset string) : gset string := {[c]} ∪ cl.
Definition classList_remove (c : string) (cl : gset string) : gset string := cl ∖ {[c]}.
Definition hidden (cl : gset string) : bool := bool_decide ("hidden" ∈ cl).

(** ** Script as state passing with exceptions *)

Definition M (A : Type) : Type := page -> completion A * page.

Definition ret {A} (a : A) : M A := fun p => (Return a, p).
Definition throw {A} (e : error) : M A := fun p => (Throw e, p).
Definition lift {A} (c : completion A) : M A := fun p => (c, p).

Definition bind {A B} (m : M A) (k : A -> M B) : M B :=
  fun p =>
    match m p with
    | (Return a, p') => k a p'
    | (Throw e, p') => (Throw e, p')
    end.

(** [m.catch(h)] / [try m catch (e) h]. *)
Definition catch {A} (m : M A) (h : error -> M A) : M A :=
  fun p =>
    match m p with
    | (Return a, p') => (Return a, p')
    | (Throw e, p') => h e p'
    end.

(** A write to the page. *)
Definition modify (f : page -> page) : M unit := fun p => (Return tt, f p).

(** A read of the page. *)
Definition read {A} (f : page -> A) : M A := fun p => (Return (f p), p).

Notation "'let!' x ':=' m 'in' k" := (bind m (fun x => k))
  (at level 10, x name, m at level 200, k at level 200, only parsing).
Notation "'do!' m 'in' k" := (bind m (fun _ => k))
  (at level 10, m at level 200, k at level 200, only parsing).

(** What the host does with a callback: run it, and if it throws (for an
    [async] callback: if its promise rejects) nobody is there to catch, so the
    error is reported to the host. *)
Definition run (m : M unit) (p : page) : page :=
  match m p with
  | (Return _, p') => p'
  | (Throw e, p') => set_uncaught (uncaught p' ++ [e]) p'
  end.

(** ** The network, as the script sees it *)

(** A [fetch] either rejects or resolves to a response, whose [json()] either
    rejects (no [body]) or resolves to the parsed body. *)
Record response : Type := Response {
  ok : bool;
  json_body : option value
}.

Inductive fetch_outcome : Type :=
  | Rejected
  | Resolved (r : response).

(** [await fetch(url, {method, body})]. *)
Definition fetch (u m : string) (b : form_data) (net : fetch_outcome) : M response :=
  do! modify (fun p => set_sent (sent p ++ [Request u m b]) p) in
  match net with
  | Rejected => throw FetchFailed
  | Resolved r => ret r
  end.

(** [await response.json()]. *)
Definition json (r : response) : M value :=
  match json_body r with
  | Some v => ret v
  | None => throw SyntaxError
  end.

(** [new FormData(form)] hands the script the entries of the form's controls
    at the time of the submit; [formData.set(name, value)] puts the new entry
    where the first one of that name was and drops the other ones, or appends
    it when there was none. *)
Definition drop_name (name : string) (fd : form_data) : form_data :=
  List.filter (fun e => negb (String.eqb (fst e) name)) fd.

Fixpoint formData_set (name v : string) (fd : form_data) : form_data :=
  match fd with
  | [] => [(name, v)]
  | (k, w) :: rest =>
      if String.eqb k name then (name, v) :: drop_name name rest
      else (k, w) :: formData_set name v rest
  end.

(** [formData.getAll(name)]. *)
Definition formData_getAll (name : string) (fd : form_data) : list string :=
  map snd (List.filter (fun e => String.eqb (fst e) name) fd).

(** ** The script *)

Section Script.

(** The one coercion of the script whose result is a floating-point matter:
    [s > 0] for a string [s] (StringToNumber, then the comparison).  It is
    only reached when a [length] that is not a number is compared with 0, and
    is left to the host. *)
Variable string_gt_zero : string -> bool.

(** [x > 0]. *)
Definition gt_zero (x : value) : bool :=
  match x with
  | VNum n => (0 <? n)%Z
  | VBool b => b
  | VUndefined | VNull | VObj _ => false
  | VStr s => string_gt_zero s
  | VArr l => string_gt_zero (ToString (VArr l))
  end.

Definition status_class (isError : bool) : string :=
  "mt-6 text-center text-sm font-medium " +:+
  (if isError then "text-red-600" else "text-gray-700").

Definition updateStatus (message : value) (isError : bool) : M unit :=
  modify (set_status (text_of message) (status_class isError)).

(** The class [appendLog] gives the new element; a fresh element has none. *)
Definition log_className (logEntry : value) : completion string :=
  let? a := includes logEntry "ERROR" in
  let? a := (if a then Return true else includes logEntry "Failed") in
  if a then Return "log-error" else
  let? b := includes logEntry "WARNING" in
  let? b := (if b then Return true else includes logEntry "Rate limit") in
  if b then Return "log-warning" else
  let? c := includes logEntry "INFO" in
  let? c := (if c then Return true else includes logEntry "Successfully") in
  if c then Return "log-info" else Return "".

Definition appendLog (logEntry : value) : M unit :=
  let! cls := lift (log_className logEntry) in
  modify (fun p => set_logOutput (logOutput p ++ [LogLine cls (text_of logEntry)]) p).

(** [JSON.parse(event.data)], the payload being given parsed, or not at all
    when it is not JSON. *)
Definition JSON_parse (payload : option value) : completion value :=
  match payload with
  | Some v => Return v
  | None => Throw SyntaxError
  end.

Definition onmessage (payload : option value) : M unit :=
  let! data := lift (JSON_parse payload) in
  let! c := lift (if truthy data
                  then let? l := get data "log" in Return (truthy l)
                  else Return false) in
  if c then
    let! l := lift (get data "log") in
    appendLog l
  else ret tt.

Definition log_failure_line : string :=
  "ERROR: Log streaming failed. Refresh the page or check server logs.".

Definition onerror : M unit :=
  do! modify (fun p => set_console (console p ++ ["EventSource failed:"]) p) in
  do! appendLog (VStr log_failure_line) in
  modify (set_eventSource CLOSED).

(** [fetch('/status').then(...).then(...).catch(...)]. *)
Definition check_status (net : fetch_outcome) : M unit :=
  catch
    (let! response := fetch "/status" "GET" [] net in
     let! data := json response in
     let! logged_in := lift (get data "logged_in") in
     if truthy logged_in then
       do! modify (fun p => set_loginForm (classList_add "hidden" (loginForm p)) p) in
       do! modify (fun p => set_botActionsSection
                              (classList_remove "hidden" (botActionsSection p)) p) in
       updateStatus (VStr "Logged in.") false
     else
       do! modify (fun p => set_loginForm (classList_remove "hidden" (loginForm p)) p) in
       do! modify (fun p => set_botActionsSection
                              (classList_add "hidden" (botActionsSection p)) p) in
       updateStatus (VStr "Please log in to Instagram.") false)
    (fun _ =>
       do! modify (fun p => set_console (console p ++ ["Error checking status:"]) p) in
       updateStatus (VStr "Could not connect to backend. Ensure the server is running.") true).

(** [loginForm]'s submit listener. *)
Definition loginForm_submit (formData : form_data) (net : fetch_outcome) : M unit :=
  do! updateStatus (VStr "Logging in...") false in
  let! response := fetch "/login" "POST" formData net in
  let! result := json response in
  let! status := lift (get result "status") in
  if strict_eq_str status "success" then
    let! message := lift (get result "message") in
    do! updateStatus message false in
    do! modify (fun p => set_loginForm (classList_add "hidden" (loginForm p)) p) in
    do! modify (fun p => set_twoFaSection (classList_add "hidden" (twoFaSection p)) p) in
    modify (fun p => set_botActionsSection
                       (classList_remove "hidden" (botActionsSection p)) p)
  else if strict_eq_str status "2fa_required" then
    let! message := lift (get result "message") in
    do! updateStatus message true in
    do! modify (fun p => set_loginForm (classList_add "hidden" (loginForm p)) p) in
    modify (fun p => set_twoFaSection (classList_remove "hidden" (twoFaSection p)) p)
  else
    let! message := lift (get result "message") in
    do! updateStatus message true in
    do! modify (fun p => set_loginForm (classList_remove "hidden" (loginForm p)) p) in
    modify (fun p => set_twoFaSection (classList_add "hidden" (twoFaSection p)) p).

(** [twoFaForm]'s submit listener. *)
Definition twoFaForm_submit (formData : form_data) (net : fetch_outcome) : M unit :=
  do! updateStatus (VStr "Submitting 2FA code...") false in
  let! response := fetch "/complete-2fa" "POST" formData net in
  let! result := json response in
  let! status := lift (get result "status") in
  if strict_eq_str status "success" then
    let! message := lift (get result "message") in
    do! updateStatus message false in
    do! modify (fun p => set_twoFaSection (classList_add "hidden" (twoFaSection p)) p) in
    modify (fun p => set_botActionsSection
                       (classList_remove "hidden" (botActionsSection p)) p)
  else
    let! message := lift (get result "message") in
    do! updateStatus message true in
    modify (fun p => set_twoFaSection (classList_remove "hidden" (twoFaSection p)) p).

(** The markup [getListForm]'s listener writes. *)
Definition fetching_html : string := "<p>Fetching list...</p>".
Definition empty_html : string := "<p>No users found or list is empty.</p>".

Definition user_html (pk username full_name : value) : string :=
  "<p>PK: " +:+ ToString pk +:+ ", Username: " +:+ ToString username +:+
  ", Full Name: " +:+ ToString full_name +:+ "</p>".

Definition warning_html (message : value) : string :=
  "<p class=" +:+ dq +:+ "text-orange-600" +:+ dq +:+ ">" +:+
  ToString message +:+ "</p>".

Definition error_html (errorDetail : value) : string :=
  "<p class=" +:+ dq +:+ "text-red-600" +:+ dq +:+ ">Error: " +:+
  ToString errorDetail +:+ "</p>".

(** [result.detail || 'Unknown error']. *)
Definition errorDetail_of (result : value) : completion value :=
  let? detail := get result "detail" in
  Return (if truthy detail then detail else VStr "Unknown error").

(** [response.ok && result.status === s]. *)
Definition ok_with_status (r : response) (result : value) (s : string)
  : completion bool :=
  if ok r then
    let? status := get result "status" in
    Return (strict_eq_str status s)
  else Return false.

(** [getListForm]'s submit listener. *)
Definition getListForm_submit (formData : form_data) (net : fetch_outcome) : M unit :=
  do! modify (set_userListOutput fetching_html) in
  do! updateStatus (VStr "Fetching user list...") false in
  let! response := fetch "/get-list" "POST" formData net in
  let! result := json response in
  do! modify (set_userListOutput "") in
  let! success := lift (ok_with_status response result "success") in
  if success then
    let! users := lift (get result "users") in
    let! n := lift (get users "length") in
    do! updateStatus (VStr ("Successfully fetched " +:+ ToString n +:+ " users.")) false in
    let! nonempty := lift (if truthy users
                           then let? n := get users "length" in Return (gt_zero n)
                           else Return false) in
    if nonempty then
      let! rows := lift (array_map users (fun user =>
                     let? pk := get user "pk" in
                     let? username := get user "username" in
                     let? full_name := get user "full_name" in
                     Return (VStr (user_html pk username full_name)))) in
      do! modify (set_userListOutput (join "" rows)) in
      let! pks := lift (array_map users (fun user => get user "pk")) in
      modify (set_recipientPks (join ", " pks))
    else
      modify (set_userListOutput empty_html)
  else
    let! warning := lift (ok_with_status response result "warning") in
    if warning then
      let! message := lift (get result "message") in
      do! updateStatus message true in
      modify (set_userListOutput (warning_html message))
    else
      let! errorDetail := lift (errorDetail_of result) in
      do! updateStatus (VStr ("Failed to fetch list: " +:+ ToString errorDetail)) true in
      modify (set_userListOutput (error_html errorDetail)).

(** [sendDmForm]'s submit listener. *)
Definition sendDmForm_submit (formData : form_data) (net : fetch_outcome) : M unit :=
  do! updateStatus (VStr "Starting mass DM process...") false in
  let! recipient_pks := read recipientPks in
  let formData := formData_set "recipient_pks" recipient_pks formData in
  let! response := fetch "/send-dm" "POST" formData net in
  let! result := json response in
  let! processing := lift (ok_with_status response result "processing") in
  if processing then
    let! message := lift (get result "message") in
    updateStatus message false
  else
    let! errorDetail := lift (errorDetail_of result) in
    updateStatus (VStr ("Failed to start DM process: " +:+ ToString errorDetail)) true.

(** ** The host: which callback runs when *)

(** What the user agent can do on the [/logs] stream.  Per the EventSource
    contract nothing is dispatched on a closed source; before it fires
    [error] the user agent has put the source back to CONNECTING (it will
    reconnect) or to CLOSED (it gave up). *)
Inductive channel_event : Type :=
  | ChOpen
  | ChMessage (payload : option value)
  | ChError (fatal : bool).

Definition deliver (ev : channel_event) (p : page) : page :=
  match eventSource p with
  | CLOSED => p
  | _ =>
      match ev with
      | ChOpen => set_eventSource OPEN p
      | ChMessage payload => run (onmessage payload) p
      | ChError fatal =>
          run onerror (set_eventSource (if fatal then CLOSED else CONNECTING) p)
      end
  end.

(** Everything that can happen to a loaded page: the probe sent at load is
    answered, one of the four forms is submitted (and its request answered),
    the operator types into the recipient field, the stream does something. *)
Inductive event : Type :=
  | StatusProbe (net : fetch_outcome)
  | LoginSubmit (formData : form_data) (net : fetch_outcome)
  | TwoFaSubmit (formData : form_data) (net : fetch_outcome)
  | GetListSubmit (formData : form_data) (net : fetch_outcome)
  | SendDmSubmit (formData : form_data) (net : fetch_outcome)
  | OperatorEdit (recipient_pks : string)     (* typing into #recipient-pks *)
  | Channel (ev : channel_event).

Definition step (p : page) (e : event) : page :=
  match e with
  | StatusProbe net => run (check_status net) p
  | LoginSubmit fd net => run (loginForm_submit fd net) p
  | TwoFaSubmit fd net => run (twoFaForm_submit fd net) p
  | GetListSubmit fd net => run (getListForm_submit fd net) p
  | SendDmSubmit fd net => run (sendDmForm_submit fd net) p
  | OperatorEdit v => set_recipientPks v p
  | Channel ev => deliver ev p
  end.

Definition steps (p : page) (es : list event) : page := fold_left step es p.

(** A run of the [/logs] stream alone. *)
Definition deliver_all (p : page) (evs : list channel_event) : page :=
  fold_left (fun q ev => deliver ev q) evs p.

(** The event that carries the log line [s]: payload [{log: s}]. *)
Definition log_event (s : string) : channel_event :=
  ChMessage (Some (VObj [("log", VStr s)])).

(** The class [appendLog] picks for a string. *)
Definition classify (s : string) : string :=
  if str_includes "ERROR" s || str_includes "Failed" s then "log-error"
  else if str_includes "WARNING" s || str_includes "Rate limit" s then "log-warning"
  else if str_includes "INFO" s || str_includes "Successfully" s then "log-info"
  else "".

(** The callback of [DOMContentLoaded], on the page as the markup gives it:
    the source is created (CONNECTING) and the status probe is on its way. *)
Definition DOMContentLoaded (markup : page) : page :=
  set_eventSource CONNECTING markup.

(** ** The session state the page shows

    The script keeps no state variable: the state of the session is which of
    the three surfaces is on display. *)
Inductive SessionState : Type := UNAUTHENTICATED | CHALLENGE_PENDING | AUTHENTICATED.

Definition session_state (p : page) : option SessionState :=
  if negb (hidden (loginForm p)) then Some UNAUTHENTICATED
  else if negb (hidden (twoFaSection p)) then Some CHALLENGE_PENDING
  else if negb (hidden (botActionsSection p)) then Some AUTHENTICATED
  else None.

(** The status line shows its message as an error. *)
Definition status_is_error (p : page) : Prop := statusClass p = status_class true.

(** The answers on which the listener takes its last branch: a parsed body
    that is neither an ok success nor an ok warning, with its detail. *)
Definition fetch_fails (r : response) (result errorDetail : value) : Prop :=
  json_body r = Some result /\
  ok_with_status r result "success" = Return false /\
  ok_with_status r result "warning" = Return false /\
  errorDetail_of result = Return errorDetail.

(** ** Concrete pages and answers *)

(** A host for the runs below; none of them compares a string with 0, so the
    choice does not show in any of them. *)
Definition no_numeric_strings : string -> bool := fun _ => false.

(** The page as loaded: credential form on display, challenge form and action
    surface hidden, nothing written yet, the log stream being opened. *)
Definition loaded : page :=
  DOMContentLoaded
    (Page ∅ {["hidden"]} {["hidden"]} "" "" "" "" [] CONNECTING [] [] []).

(** The page while a challenge is pending. *)
Definition challenged : page :=
  Page {["hidden"]} ∅ {["hidden"]} "" "" "" "" [] OPEN [] [] [].

Definition answer (fields : list (string * value)) : fetch_outcome :=
  Resolved (Response true (Some (VObj fields))).

Definition contact (pk : Z) (username full_name : string) : value :=
  VObj [("pk", VNum pk); ("username", VStr username); ("full_name", VStr full_name)].

Definition three_contacts : list value :=
  [contact 1 "ann" "Ann A"; contact 2 "bob" "Bob B"; contact 3 "cy" "Cy C"].

Definition credentials : form_data := [("username", "op"); ("password", "pw")].

(** ** Basic facts *)

Lemma hidden_add (cl : gset string) : hidden (classList_add "hidden" cl) = true.
Proof. unfold hidden, classList_add. apply bool_decide_eq_true. set_solver. Qed.

Lemma hidden_remove (cl : gset string) : hidden (classList_remove "hidden" cl) = false.
Proof.
  unfold hidden, classList_remove. apply bool_decide_eq_false.
  rewrite elem_of_difference, elem_of_singleton. intros [_ Hne]. exact (Hne eq_refl).
Qed.

Lemma status_class_differ : status_class true <> status_class false.
Proof. discriminate. Qed.

(** [m] leaves the observation [f] of the page alone, however it ends. *)
Definition keeps {A B} (f : page -> B) (m : M A) : Prop :=
  forall p, f (snd (m p)) = f p.

Lemma keeps_ret {A B} (f : page -> B) (a : A) : keeps f (ret a).
Proof. intros p. reflexivity. Qed.

Lemma keeps_throw {A B} (f : page -> B) e : keeps f (@throw A e).
Proof. intros p. reflexivity. Qed.

Lemma keeps_lift {A B} (f : page -> B) (c : completion A) : keeps f (lift c).
Proof. intros p. reflexivity. Qed.

Lemma keeps_read {A B} (f : page -> B) (g : page -> A) : keeps f (read g).
Proof. intros p. reflexivity. Qed.

Lemma keeps_modify {B} (f : page -> B) (g : page -> page) :
  (forall p, f (g p) = f p) -> keeps f (modify g).
Proof. intros H p. apply H. Qed.

Lemma keeps_bind {A B C} (f : page -> C) (m : M A) (k : A -> M B) :
  keeps f m -> (forall a, keeps f (k a)) -> keeps f (bind m k).
Proof.
  intros Hm Hk p. unfold bind. specialize (Hm p).
  destruct (m p) as [[a|e] p']; simpl in *.
  - rewrite Hk. exact Hm.
  - exact Hm.
Qed.

Lemma keeps_catch {A C} (f : page -> C) (m : M A) (h : error -> M A) :
  keeps f m -> (forall e, keeps f (h e)) -> keeps f (catch m h).
Proof.
  intros Hm Hh p. unfold catch. specialize (Hm p).
  destruct (m p) as [[a|e] p']; simpl in *.
  - exact Hm.
  - rewrite Hh. exact Hm.
Qed.

Lemma keeps_run {C} (f : page -> C) (m : M unit) :
  keeps f m -> (forall u p, f (set_uncaught u p) = f p) ->
  forall p, f (run m p) = f p.
Proof.
  intros Hm Hu p. unfold run. specialize (Hm p).
  destruct (m p) as [[a|e] p']; simpl in *.
  - exact Hm.
  - rewrite Hu. exact Hm.
Qed.

Ltac keeps_step :=
  first
    [ apply keeps_bind; [|intros ?]
    | apply keeps_catch; [|intros ?]
    | apply keeps_ret | apply keeps_throw | apply keeps_lift | apply keeps_read
    | apply keeps_modify; intros ?; reflexivity
    | match goal with
      | |- keeps _ (if ?b then _ else _) => destruct b
      | |- keeps _ (match ?x with _ => _ end) => destruct x
      end ].

Ltac keeps_tac := repeat keeps_step.

Lemma fetch_keeps_log u m b net : keeps logOutput (fetch u m b net).
Proof. unfold fetch. keeps_tac. Qed.

Lemma fetch_keeps_source u m b net : keeps eventSource (fetch u m b net).
Proof. unfold fetch. keeps_tac. Qed.

(** The probe and the four forms never touch the log or the event source. *)
Lemma forms_keep_log (e : event) (p : page) :
  (forall ev, e <> Channel ev) ->
  logOutput (step p e) = logOutput p /\ eventSource (step p e) = eventSource p.
Proof.
  intros Hne. destruct e as [net|fd net|fd net|fd net|fd net|v|ev]; simpl;
    try (split; reflexivity);
    try (split; apply keeps_run; try (intros; reflexivity);
         unfold check_status, loginForm_submit, twoFaForm_submit,
           getListForm_submit, sendDmForm_submit, updateStatus, fetch, json;
         keeps_tac).
  exfalso. exact (Hne ev eq_refl).
Qed.

(** ** The log stream *)

Lemma log_className_str (s : string) : log_className (VStr s) = Return (classify s).
Proof.
  unfold log_className, classify, includes, cbind.
  destruct (str_includes "ERROR" s); [reflexivity|].
  destruct (str_includes "Failed" s); [reflexivity|].
  destruct (str_includes "WARNING" s); [reflexivity|].
  destruct (str_includes "Rate limit" s); [reflexivity|].
  destruct (str_includes "INFO" s); [reflexivity|].
  destruct (str_includes "Successfully" s); reflexivity.
Qed.

Lemma appendLog_str (s : string) (p : page) :
  appendLog (VStr s) p
  = (Return tt, set_logOutput (logOutput p ++ [LogLine (classify s) s]) p).
Proof. unfold appendLog, bind, lift. rewrite log_className_str. reflexivity. Qed.

(** One log event on a live source: an empty line is skipped, any other line
    is appended, and the source stays as it was. *)
Lemma deliver_log_event (s : string) (p : page) :
  eventSource p <> CLOSED ->
  deliver (log_event s) p
  = if String.eqb s "" then p
    else set_logOutput (logOutput p ++ [LogLine (classify s) s]) p.
Proof.
  intros Hlive. unfold deliver, log_event.
  assert (Hrun : run (onmessage (Some (VObj [("log", VStr s)]))) p
                 = if String.eqb s "" then p
                   else set_logOutput (logOutput p ++ [LogLine (classify s) s]) p).
  { unfold run, onmessage, bind, lift, ret. simpl.
    destruct (String.eqb s ""); simpl; [reflexivity|].
    rewrite appendLog_str. reflexivity. }
  destruct (eventSource p); [exact Hrun|exact Hrun|congruence].
Qed.

Lemma deliver_closed (ev : channel_event) (p : page) :
  eventSource p = CLOSED -> deliver ev p = p.
Proof. intros H. unfold deliver. rewrite H. reflexivity. Qed.

(** Once the source is closed nothing reaches the log any more, whatever
    happens to the page. *)
Lemma closed_forever (es : list event) (p : page) :
  eventSource p = CLOSED ->
  logOutput (steps p es) = logOutput p /\ eventSource (steps p es) = CLOSED.
Proof.
  revert p. induction es as [|e es IH]; intros p Hc; [split; [reflexivity|exact Hc]|].
  unfold steps in *. simpl.
  assert (Hstep : logOutput (step p e) = logOutput p /\ eventSource (step p e) = CLOSED).
  { destruct e as [net|fd net|fd net|fd net|fd net|v|ev];
      try (rewrite <- Hc; apply forms_keep_log; intros ev; discriminate).
    simpl. rewrite (deliver_closed ev p Hc). split; [reflexivity|exact Hc]. }
  destruct Hstep as [Hl Hs]. destruct (IH _ Hs) as [IHl IHs].
  split; [rewrite IHl; exact Hl|exact IHs].
Qed.

(** What [onerror] does on a source that is not closed yet. *)
Lemma deliver_error (fatal : bool) (p : page) :
  eventSource p <> CLOSED ->
  let p' := deliver (ChError fatal) p in
  logOutput p' = logOutput p ++ [LogLine "log-error" log_failure_line] /\
  eventSource p' = CLOSED /\
  sent p' = sent p /\ uncaught p' = uncaught p.
Proof.
  intros Hlive. unfold deliver.
  assert (Hrun : forall q, logOutput q = logOutput p -> sent q = sent p ->
                           uncaught q = uncaught p ->
            logOutput (run onerror q) = logOutput p ++ [LogLine "log-error" log_failure_line] /\
            eventSource (run onerror q) = CLOSED /\
            sent (run onerror q) = sent p /\ uncaught (run onerror q) = uncaught p).
  { intros q Hl Hs Hu. unfold run, onerror, bind, modify. rewrite appendLog_str.
    simpl. rewrite Hl. auto. }
  destruct (eventSource p); [apply Hrun; reflexivity|apply Hrun; reflexivity|congruence].
Qed.

(** C5. When the log channel fails on a live source, exactly one line, the
    explicit error line, is appended to the log and the source is closed; from
    then on, whatever events the page sees (further channel events, form
    submissions, edits), the log keeps its content and the source stays
    closed: the script opens no second source and issues no request for it. *)
Theorem log_failure_appends_once_then_silence
    (p : page) (fatal : bool) (es : list event) :
  eventSource p <> CLOSED ->
  let p1 := step p (Channel (ChError fatal)) in
  logOutput p1 = logOutput p ++ [LogLine "log-error" log_failure_line] /\
  eventSource p1 = CLOSED /\
  sent p1 = sent p /\
  logOutput (steps p1 es) = logOutput p1 /\
  eventSource (steps p1 es) = CLOSED.
Proof.
  intros Hlive p1. subst p1. simpl.
  destruct (deliver_error fatal p Hlive) as (Hl & Hc & Hs & _).
  destruct (closed_forever es _ Hc) as [Hl' Hc'].
  repeat split; assumption.
Qed.

(** C2, as the script has it.  For every sequence of log lines delivered on a
    live source, the log grows by exactly the non-empty lines of the sequence,
    each once, in arrival order, each with the class its text selects; a line
    whose text is empty is skipped by the guard [data && data.log]. *)
Theorem log_stream_renders_nonempty_lines_in_order (p : page) (ls : list string) :
  eventSource p <> CLOSED ->
  let p' := deliver_all p (map log_event ls) in
  logOutput p'
  = logOutput p
    ++ map (fun s => LogLine (classify s) s)
           (List.filter (fun s => negb (String.eqb s "")) ls) /\
  map textContent (logOutput p')
  = map textContent (logOutput p)
    ++ List.filter (fun s => negb (String.eqb s "")) ls /\
  eventSource p' = eventSource p.
Proof.
  intros Hlive. simpl.
  assert (Hmain : logOutput (deliver_all p (map log_event ls))
            = logOutput p ++ map (fun s => LogLine (classify s) s)
                                 (List.filter (fun s => negb (String.eqb s "")) ls) /\
            eventSource (deliver_all p (map log_event ls)) = eventSource p).
  { revert p Hlive. induction ls as [|s ls IH]; intros p Hlive.
    - simpl. rewrite app_nil_r. split; reflexivity.
    - unfold deliver_all in *. simpl. rewrite (deliver_log_event s p Hlive).
      destruct (String.eqb s ""); simpl.
      + apply IH. exact Hlive.
      + destruct (IH (set_logOutput (logOutput p ++ [LogLine (classify s) s]) p) Hlive)
          as [Hl Hs].
        rewrite Hl. simpl. rewrite <- app_assoc. split; [reflexivity|exact Hs]. }
  destruct Hmain as [Hl Hs]. split; [exact Hl|split; [|exact Hs]].
  rewrite Hl, map_app, map_map. simpl. rewrite map_id. reflexivity.
Qed.

(** ** Reading properties *)

Lemma strict_eq_str_true (a : value) (s : string) :
  strict_eq_str a s = true <-> a = VStr s.
Proof.
  destruct a; simpl; try (split; [discriminate|discriminate]).
  rewrite String.eqb_eq. split; [intros ->; reflexivity|intros [= ->]; reflexivity].
Qed.

Lemma strict_eq_str_false (a : value) (s : string) :
  strict_eq_str a s = false <-> a <> VStr s.
Proof.
  rewrite <- strict_eq_str_true. destruct (strict_eq_str a s); split; congruence.
Qed.

(** A value one property of which can be read lets every property be read. *)
Lemma get_readable (o : value) (k k' : string) (v : value) :
  get o k = Return v -> exists v', get o k' = Return v'.
Proof. destruct o; simpl; intros H; try discriminate; eexists; reflexivity. Qed.

(** ** The two sign-in forms *)

(** C4, as the script has it.  When the answer to a credential submission has
    status [2fa_required], the credential form is hidden and the challenge form
    is shown, so the page is in CHALLENGE_PENDING; the backend's message goes
    to the status line, and it goes there with the error flag set. *)
Theorem login_2fa_required_shows_challenge
    (p : page) (fd : form_data) (r : response) (result : value) :
  json_body r = Some result ->
  get result "status" = Return (VStr "2fa_required") ->
  let p' := run (loginForm_submit fd (Resolved r)) p in
  hidden (loginForm p') = true /\
  hidden (twoFaSection p') = false /\
  session_state p' = Some CHALLENGE_PENDING /\
  (exists message, get result "message" = Return message /\
                   statusText p' = text_of message) /\
  status_is_error p' /\
  uncaught p' = uncaught p.
Proof.
  intros Hbody Hstatus.
  destruct (get_readable result "status" "message" _ Hstatus) as [message Hmsg].
  destruct r as [okb body]. simpl in Hbody. subst body.
  unfold run, loginForm_submit, bind, lift, modify, fetch, json, updateStatus, ret. simpl.
  rewrite Hstatus. simpl. rewrite Hmsg. simpl.
  unfold session_state. simpl. rewrite hidden_add, hidden_remove. simpl.
  repeat split; try reflexivity. exists message. split; reflexivity.
Qed.

(** C9. A challenge-code submission made in CHALLENGE_PENDING whose answer
    carries a status other than [success] leaves the page in
    CHALLENGE_PENDING: the challenge form is still shown and the credential
    form still hidden, and the backend's message is reported as an error. *)
Theorem twofa_failure_stays_challenge_pending
    (p : page) (fd : form_data) (r : response) (result status : value) :
  session_state p = Some CHALLENGE_PENDING ->
  json_body r = Some result ->
  get result "status" = Return status ->
  status <> VStr "success" ->
  let p' := run (twoFaForm_submit fd (Resolved r)) p in
  session_state p' = Some CHALLENGE_PENDING /\
  hidden (twoFaSection p') = false /\
  hidden (loginForm p') = true /\
  (exists message, get result "message" = Return message /\
                   statusText p' = text_of message) /\
  status_is_error p' /\
  uncaught p' = uncaught p.
Proof.
  intros Hstate Hbody Hstatus Hne.
  destruct (get_readable result "status" "message" _ Hstatus) as [message Hmsg].
  apply strict_eq_str_false in Hne.
  assert (Hlogin : hidden (loginForm p) = true).
  { unfold session_state in Hstate.
    destruct (hidden (loginForm p)); [reflexivity|discriminate]. }
  destruct r as [okb body]. simpl in Hbody. subst body.
  unfold run, twoFaForm_submit, bind, lift, modify, fetch, json, updateStatus, ret. simpl.
  rewrite Hstatus. simpl. rewrite Hne. rewrite Hmsg. simpl.
  unfold session_state. simpl. rewrite Hlogin, hidden_remove. simpl.
  repeat split; try reflexivity. exists message. split; reflexivity.
Qed.

(** C1, at the failing input.  When the request of a form submission is
    rejected by the network, no handler of the script is in the way: the
    rejection reaches the host uncaught and the status line keeps its
    in-progress text, shown as no error.  The status probe, in contrast,
    catches the same rejection and reports it on the status line. *)
Theorem submit_network_failure_is_uncaught (p : page) (fd : form_data) :
  (let p' := run (loginForm_submit fd Rejected) p in
   uncaught p' = uncaught p ++ [FetchFailed] /\
   statusText p' = "Logging in..." /\ statusClass p' = status_class false) /\
  (let p' := run (twoFaForm_submit fd Rejected) p in
   uncaught p' = uncaught p ++ [FetchFailed] /\
   statusText p' = "Submitting 2FA code..." /\ statusClass p' = status_class false) /\
  (let p' := run (getListForm_submit fd Rejected) p in
   uncaught p' = uncaught p ++ [FetchFailed] /\
   statusText p' = "Fetching user list..." /\ statusClass p' = status_class false /\
   userListOutput p' = fetching_html) /\
  (let p' := run (sendDmForm_submit fd Rejected) p in
   uncaught p' = uncaught p ++ [FetchFailed] /\
   statusText p' = "Starting mass DM process..." /\
   statusClass p' = status_class false) /\
  (let p' := run (check_status Rejected) p in
   uncaught p' = uncaught p /\
   statusText p' = "Could not connect to backend. Ensure the server is running." /\
   status_is_error p').
Proof. repeat split. Qed.

(** ** The contact list *)

Lemma warning_not_error (message d : value) : warning_html message <> error_html d.
Proof. unfold warning_html, error_html, dq. simpl. discriminate. Qed.

Lemma warning_not_empty (message : value) : warning_html message <> empty_html.
Proof. unfold warning_html, empty_html, dq. simpl. discriminate. Qed.

Lemma warning_not_rows (message pk username full_name : value) (more : string) :
  warning_html message <> user_html pk username full_name +:+ more.
Proof. unfold warning_html, user_html, dq. simpl. discriminate. Qed.

Lemma error_not_empty (d : value) : error_html d <> empty_html.
Proof. unfold error_html, empty_html, dq. simpl. discriminate. Qed.

(** C3, as the script has it.  When the answer to a contact-list fetch is ok
    and has status [warning], the backend's message is written to the list
    area in the orange paragraph, which is neither the red error paragraph nor
    anything a success writes; the same message goes to the status line, and
    it goes there with the error flag set. *)
Theorem list_warning_is_orange_in_list_and_error_on_status
    (p : page) (fd : form_data) (r : response) (result message : value) :
  ok r = true ->
  json_body r = Some result ->
  get result "status" = Return (VStr "warning") ->
  get result "message" = Return message ->
  let p' := run (getListForm_submit fd (Resolved r)) p in
  userListOutput p' = warning_html message /\
  (forall d, userListOutput p' <> error_html d) /\
  userListOutput p' <> empty_html /\
  (forall pk username full_name more,
      userListOutput p' <> user_html pk username full_name +:+ more) /\
  statusText p' = text_of message /\
  status_is_error p' /\
  uncaught p' = uncaught p.
Proof.
  intros Hok Hbody Hstatus Hmsg.
  destruct r as [okb body]. simpl in Hok, Hbody. subst okb body.
  assert (Hrun : run (getListForm_submit fd (Resolved (Response true (Some result)))) p
                 = set_userListOutput (warning_html message)
                     (set_status (text_of message) (status_class true)
                        (set_userListOutput ""
                           (set_sent (sent p ++ [Request "/get-list" "POST" fd])
                              (set_status "Fetching user list..." (status_class false)
                                 (set_userListOutput fetching_html p)))))).
  { unfold run, getListForm_submit, bind, lift, modify, fetch, json, updateStatus,
      ok_with_status, ret. simpl.
    rewrite Hstatus. simpl. rewrite Hmsg. reflexivity. }
  simpl. rewrite Hrun. simpl.
  repeat split; try reflexivity.
  - intros d. apply warning_not_error.
  - apply warning_not_empty.
  - intros pk username full_name more. apply warning_not_rows.
Qed.

Lemma failing_fetch_renders_error
    (p : page) (fd : form_data) (r : response) (result d : value) :
  fetch_fails r result d ->
  let p' := run (getListForm_submit fd (Resolved r)) p in
  userListOutput p' = error_html d /\
  statusText p' = "Failed to fetch list: " +:+ ToString d /\
  status_is_error p'.
Proof.
  intros (Hbody & Hs & Hw & Hd).
  destruct r as [okb body]. simpl in Hbody. subst body.
  unfold run, getListForm_submit, bind, lift, modify, fetch, json, updateStatus, ret. simpl.
  rewrite Hs. simpl. rewrite Hw. simpl. rewrite Hd. simpl.
  repeat split; reflexivity.
Qed.

(** C8. When the answer to a contact-list fetch is ok, has status [success]
    and an empty [users] array, the list area shows the empty-state paragraph
    and the status line a count of 0, not flagged as an error; on every
    failing fetch the list area shows the error paragraph, which is a different
    text whatever the detail. *)
Theorem empty_list_renders_empty_state
    (p : page) (fd : form_data) (r : response) (result : value) :
  ok r = true ->
  json_body r = Some result ->
  get result "status" = Return (VStr "success") ->
  get result "users" = Return (VArr []) ->
  let p' := run (getListForm_submit fd (Resolved r)) p in
  userListOutput p' = empty_html /\
  statusText p' = "Successfully fetched 0 users." /\
  ~ status_is_error p' /\
  uncaught p' = uncaught p /\
  (forall q fd2 r2 result2 d,
      fetch_fails r2 result2 d ->
      let q' := run (getListForm_submit fd2 (Resolved r2)) q in
      userListOutput q' = error_html d /\
      status_is_error q' /\
      userListOutput q' <> userListOutput p').
Proof.
  intros Hok Hbody Hstatus Husers.
  destruct r as [okb body]. simpl in Hok, Hbody. subst okb body.
  assert (Hrun : run (getListForm_submit fd (Resolved (Response true (Some result)))) p
                 = set_userListOutput empty_html
                     (set_status "Successfully fetched 0 users." (status_class false)
                        (set_userListOutput ""
                           (set_sent (sent p ++ [Request "/get-list" "POST" fd])
                              (set_status "Fetching user list..." (status_class false)
                                 (set_userListOutput fetching_html p)))))).
  { unfold run, getListForm_submit, bind, lift, modify, fetch, json, updateStatus,
      ok_with_status, ret. simpl.
    rewrite Hstatus. simpl. rewrite Husers. reflexivity. }
  simpl. rewrite Hrun. simpl.
  repeat split; try reflexivity.
  - unfold status_is_error. simpl. intros H. symmetry in H.
    exact (status_class_differ H).
  - apply (failing_fetch_renders_error q fd2 r2 result2 d H).
  - apply (failing_fetch_renders_error q fd2 r2 result2 d H).
  - destruct (failing_fetch_renders_error q fd2 r2 result2 d H) as (-> & _).
    apply error_not_empty.
Qed.

(** C10. In the success branch [result.users.length] is read for the status
    line before [result.users] is tested: when the answer is ok, has status
    [success] and its [users] is missing or null, the listener throws a
    TypeError that nobody catches; the list area is left blank, the status
    line keeps its in-progress text and the recipient field is untouched. *)
Theorem success_without_users_throws
    (p : page) (fd : form_data) (r : response) (result users : value) :
  ok r = true ->
  json_body r = Some result ->
  get result "status" = Return (VStr "success") ->
  get result "users" = Return users ->
  users = VUndefined \/ users = VNull ->
  let p' := run (getListForm_submit fd (Resolved r)) p in
  uncaught p' = uncaught p ++ [TypeError] /\
  userListOutput p' = "" /\
  statusText p' = "Fetching user list..." /\
  recipientPks p' = recipientPks p.
Proof.
  intros Hok Hbody Hstatus Husers Hmissing.
  destruct r as [okb body]. simpl in Hok, Hbody. subst okb body.
  unfold run, getListForm_submit, bind, lift, modify, fetch, json, updateStatus,
    ok_with_status, ret. simpl.
  rewrite Hstatus. simpl. rewrite Husers.
  destruct Hmissing as [-> | ->]; simpl; repeat split; reflexivity.
Qed.

Lemma map_items_pks (users pks : list value) :
  Forall2 (fun user pk => get user "pk" = Return pk) users pks ->
  map_items (fun user => get user "pk") users = Return pks.
Proof.
  induction 1 as [|user pk users pks Hpk _ IH]; simpl; [reflexivity|].
  rewrite Hpk. simpl. rewrite IH. reflexivity.
Qed.

Lemma map_items_rows (users pks : list value) :
  Forall2 (fun user pk => get user "pk" = Return pk) users pks ->
  exists rows,
    map_items (fun user =>
                 let? pk := get user "pk" in
                 let? username := get user "username" in
                 let? full_name := get user "full_name" in
                 Return (VStr (user_html pk username full_name))) users
    = Return rows /\
    Forall2 (fun user row =>
               exists pk username full_name,
                 get user "pk" = Return pk /\
                 get user "username" = Return username /\
                 get user "full_name" = Return full_name /\
                 row = VStr (user_html pk username full_name)) users rows.
Proof.
  induction 1 as [|user pk users pks Hpk _ (rows & Hrows & Hall)].
  - exists []. split; [reflexivity|constructor].
  - destruct (get_readable user "pk" "username" _ Hpk) as [username Hu].
    destruct (get_readable user "pk" "full_name" _ Hpk) as [full_name Hf].
    exists (VStr (user_html pk username full_name) :: rows). split.
    + simpl. rewrite Hpk. simpl. rewrite Hu. simpl. rewrite Hf. simpl.
      rewrite Hrows. reflexivity.
    + constructor; [|exact Hall]. exists pk, username, full_name. auto.
Qed.

(** C7. When the answer to a contact-list fetch is ok, has status [success]
    and a non-empty array of users whose [pk]s are [pks], in order, the
    recipient field is set to these [pks] joined by a comma and a space; each
    user is listed in the list area and the status line reports their
    number. *)
Theorem fetched_pks_fill_recipient_field
    (p : page) (fd : form_data) (r : response) (result : value)
    (users pks : list value) :
  ok r = true ->
  json_body r = Some result ->
  get result "status" = Return (VStr "success") ->
  get result "users" = Return (VArr users) ->
  users <> [] ->
  Forall2 (fun user pk => get user "pk" = Return pk) users pks ->
  let p' := run (getListForm_submit fd (Resolved r)) p in
  recipientPks p' = join ", " pks /\
  (exists rows,
      userListOutput p' = join "" rows /\
      Forall2 (fun user row =>
                 exists pk username full_name,
                   get user "pk" = Return pk /\
                   get user "username" = Return username /\
                   get user "full_name" = Return full_name /\
                   row = VStr (user_html pk username full_name)) users rows) /\
  statusText p'
  = "Successfully fetched " +:+ pretty (Z.of_nat (length users)) +:+ " users." /\
  ~ status_is_error p' /\
  uncaught p' = uncaught p.
Proof.
  intros Hok Hbody Hstatus Husers Hne Hpks.
  destruct (map_items_rows users pks Hpks) as (rows & Hrows & Hall).
  pose proof (map_items_pks users pks Hpks) as Hmap.
  destruct r as [okb body]. simpl in Hok, Hbody. subst okb body.
  assert (Hpos : (0 <? Z.of_nat (length users))%Z = true).
  { destruct users; [congruence|reflexivity]. }
  assert (Hrun : run (getListForm_submit fd (Resolved (Response true (Some result)))) p
                 = set_recipientPks (join ", " pks)
                     (set_userListOutput (join "" rows)
                        (set_status
                           ("Successfully fetched "
                              +:+ pretty (Z.of_nat (length users)) +:+ " users.")
                           (status_class false)
                           (set_userListOutput ""
                              (set_sent (sent p ++ [Request "/get-list" "POST" fd])
                                 (set_status "Fetching user list..." (status_class false)
                                    (set_userListOutput fetching_html p))))))).
  { unfold run, getListForm_submit, bind, lift, modify, fetch, json, updateStatus,
      ok_with_status, ret. simpl.
    rewrite Hstatus. simpl. rewrite Husers. simpl.
    rewrite Hpos. simpl. rewrite Hrows. simpl. rewrite Hmap. reflexivity. }
  simpl. rewrite Hrun. simpl.
  split; [reflexivity|]. split; [exists rows; split; [reflexivity|exact Hall]|].
  split; [reflexivity|]. split; [|reflexivity].
  unfold status_is_error. simpl. intros H. symmetry in H.
  exact (status_class_differ H).
Qed.

(** ** Bulk messages *)

Lemma getAll_drop_name (name : string) (fd : form_data) :
  formData_getAll name (drop_name name fd) = [].
Proof.
  unfold formData_getAll, drop_name.
  induction fd as [|[k w] fd IH]; [reflexivity|]. simpl.
  destruct (String.eqb_spec k name) as [Hk|Hk]; simpl; [exact IH|].
  destruct (String.eqb_spec k name); [contradiction|exact IH].
Qed.

Lemma getAll_drop_other (name name' : string) (fd : form_data) :
  name' <> name ->
  formData_getAll name' (drop_name name fd) = formData_getAll name' fd.
Proof.
  intros Hne. unfold formData_getAll, drop_name.
  induction fd as [|[k w] fd IH]; [reflexivity|]. simpl.
  destruct (String.eqb_spec k name) as [Hk|Hk]; simpl.
  - destruct (String.eqb_spec k name'); [congruence|exact IH].
  - destruct (String.eqb_spec k name'); simpl; [f_equal|]; exact IH.
Qed.

(** After [formData.set(name, v)] the only value under [name] is [v]. *)
Lemma getAll_set (name v : string) (fd : form_data) :
  formData_getAll name (formData_set name v fd) = [v].
Proof.
  induction fd as [|[k w] fd IH]; simpl.
  - unfold formData_getAll. simpl. rewrite String.eqb_refl. reflexivity.
  - destruct (String.eqb_spec k name) as [Hk|Hk].
    + unfold formData_getAll. simpl. rewrite String.eqb_refl. simpl.
      f_equal. apply getAll_drop_name.
    + unfold formData_getAll in *. simpl.
      destruct (String.eqb_spec k name); [contradiction|exact IH].
Qed.

(** ... and the values under every other name are the form's. *)
Lemma getAll_set_other (name name' v : string) (fd : form_data) :
  name' <> name ->
  formData_getAll name' (formData_set name v fd) = formData_getAll name' fd.
Proof.
  intros Hne. induction fd as [|[k w] fd IH]; simpl.
  - unfold formData_getAll. simpl.
    destruct (String.eqb_spec name name'); [congruence|reflexivity].
  - destruct (String.eqb_spec k name) as [Hk|Hk].
    + subst k. unfold formData_getAll. simpl.
      destruct (String.eqb_spec name name'); [congruence|].
      apply getAll_drop_other. exact Hne.
    + unfold formData_getAll in *. simpl.
      destruct (String.eqb_spec k name'); simpl; [f_equal|]; exact IH.
Qed.

Lemma sendDm_request (p : page) (fd : form_data) (net : fetch_outcome) :
  sent (run (sendDmForm_submit fd net) p)
  = sent p ++ [Request "/send-dm" "POST"
                 (formData_set "recipient_pks" (recipientPks p) fd)].
Proof.
  unfold run, sendDmForm_submit, bind, lift, modify, fetch, json, updateStatus,
    read, ret, throw. simpl.
  destruct net as [|[okb [result|]]]; simpl; try reflexivity.
  destruct (ok_with_status _ _ _) as [[|]|]; simpl; try reflexivity.
  - destruct (get result "message"); reflexivity.
  - destruct (errorDetail_of result); reflexivity.
Qed.

(** C6. Every bulk-message submission issues one request to [/send-dm] whose
    body carries, under [recipient_pks], exactly the value the recipient field
    has at the submit, whatever the form itself captured under that name, and
    the form's values under every other name.  In particular, when the operator
    edits the field after a contact-list fetch has filled it, the edited value
    is the one sent. *)
Theorem send_dm_sends_the_field_as_it_stands
    (p : page) (fd : form_data) (net : fetch_outcome) :
  (exists b,
      sent (step p (SendDmSubmit fd net)) = sent p ++ [Request "/send-dm" "POST" b] /\
      formData_getAll "recipient_pks" b = [recipientPks p] /\
      forall name, name <> "recipient_pks" ->
                   formData_getAll name b = formData_getAll name fd) /\
  (forall fd1 net1 edited,
      let q := steps p [GetListSubmit fd1 net1; OperatorEdit edited] in
      exists b,
        sent (step q (SendDmSubmit fd net)) = sent q ++ [Request "/send-dm" "POST" b] /\
        formData_getAll "recipient_pks" b = [edited]).
Proof.
  split.
  - exists (formData_set "recipient_pks" (recipientPks p) fd). simpl.
    split; [apply sendDm_request|]. split; [apply getAll_set|].
    intros name Hne. apply getAll_set_other. exact Hne.
  - intros fd1 net1 edited q.
    exists (formData_set "recipient_pks" (recipientPks q) fd). simpl.
    split; [apply sendDm_request|]. apply getAll_set.
Qed.

(** ** The status probe *)

(** What the probe reads off the answer: the [logged_in] of a parsed body, if
    the request got that far. *)
Definition probe_answer (net : fetch_outcome) : option value :=
  match net with
  | Rejected => None
  | Resolved r =>
      match json_body r with
      | None => None
      | Some data =>
          match get data "logged_in" with
          | Return v => Some v
          | Throw _ => None
          end
      end
  end.

(** X1. Whatever becomes of the probe (the request rejected, a body that is
    not JSON, a body that is [null]), nothing reaches the host uncaught; and
    when no answer can be read, the status line says so as an error, the
    console gets its label, and none of the three surfaces is touched. *)
Theorem status_probe_catches_everything (p : page) (net : fetch_outcome) :
  uncaught (run (check_status net) p) = uncaught p /\
  (probe_answer net = None ->
   let p' := run (check_status net) p in
   statusText p' = "Could not connect to backend. Ensure the server is running." /\
   status_is_error p' /\
   console p' = console p ++ ["Error checking status:"] /\
   loginForm p' = loginForm p /\
   twoFaSection p' = twoFaSection p /\
   botActionsSection p' = botActionsSection p).
Proof.
  unfold run, check_status, catch, bind, lift, modify, fetch, json, updateStatus,
    ret, throw, probe_answer.
  destruct net as [|[okb [data|]]]; simpl.
  - split; [reflexivity|intros _; repeat split].
  - destruct (get data "logged_in") as [v|e]; simpl.
    + destruct (truthy v); simpl; (split; [reflexivity|discriminate]).
    + split; [reflexivity|intros _; repeat split].
  - split; [reflexivity|intros _; repeat split].
Qed.

(** X2. When the probe is answered, a truthy [logged_in] hides the credential
    form and shows the action surface, any other value shows the credential
    form and hides the action surface; the challenge form is left as it is and
    the status line is not an error. *)
Theorem status_probe_picks_the_surface (p : page) (net : fetch_outcome) (v : value) :
  probe_answer net = Some v ->
  let p' := run (check_status net) p in
  hidden (loginForm p') = truthy v /\
  hidden (botActionsSection p') = negb (truthy v) /\
  twoFaSection p' = twoFaSection p /\
  statusText p' = (if truthy v then "Logged in." else "Please log in to Instagram.") /\
  ~ status_is_error p' /\
  (hidden (twoFaSection p) = true ->
   session_state p' = Some (if truthy v then AUTHENTICATED else UNAUTHENTICATED)).
Proof.
  unfold probe_answer. destruct net as [|[okb [data|]]]; simpl; try discriminate.
  destruct (get data "logged_in") as [v'|e] eqn:Hget; [|discriminate].
  intros [= ->].
  unfold run, check_status, catch, bind, lift, modify, fetch, json, updateStatus,
    ret, throw. simpl. rewrite Hget.
  assert (Hclass : status_class false <> status_class true)
    by (intros H; symmetry in H; exact (status_class_differ H)).
  unfold session_state, status_is_error.
  destruct (truthy v); simpl; rewrite ?hidden_add, ?hidden_remove; simpl;
    (repeat split; try reflexivity; try exact Hclass);
    intros ->; reflexivity.
Qed.

(** ** More on the sign-in forms *)

(** X3. When the answer to a credential submission has status [success], the
    credential form and the challenge form are hidden and the action surface
    is shown: the page is AUTHENTICATED, with the backend's message on the
    status line, not as an error. *)
Theorem login_success_authenticates
    (p : page) (fd : form_data) (r : response) (result : value) :
  json_body r = Some result ->
  get result "status" = Return (VStr "success") ->
  let p' := run (loginForm_submit fd (Resolved r)) p in
  hidden (loginForm p') = true /\
  hidden (twoFaSection p') = true /\
  hidden (botActionsSection p') = false /\
  session_state p' = Some AUTHENTICATED /\
  (exists message, get result "message" = Return message /\
                   statusText p' = text_of message) /\
  ~ status_is_error p' /\
  uncaught p' = uncaught p.
Proof.
  intros Hbody Hstatus.
  destruct (get_readable result "status" "message" _ Hstatus) as [message Hmsg].
  destruct r as [okb body]. simpl in Hbody. subst body.
  unfold run, loginForm_submit, bind, lift, modify, fetch, json, updateStatus, ret. simpl.
  rewrite Hstatus. simpl. rewrite Hmsg. simpl.
  unfold session_state, status_is_error. simpl. rewrite !hidden_add, hidden_remove. simpl.
  repeat split; try reflexivity.
  - exists message. split; reflexivity.
  - intros H. symmetry in H. exact (status_class_differ H).
Qed.

(** X4. When the answer to a credential submission has any status other than
    [success] and [2fa_required] (a missing status included), the credential
    form is shown again and the challenge form hidden: the page is
    UNAUTHENTICATED, with the backend's message as an error. *)
Theorem login_failure_shows_the_form_again
    (p : page) (fd : form_data) (r : response) (result status : value) :
  json_body r = Some result ->
  get result "status" = Return status ->
  status <> VStr "success" ->
  status <> VStr "2fa_required" ->
  let p' := run (loginForm_submit fd (Resolved r)) p in
  hidden (loginForm p') = false /\
  hidden (twoFaSection p') = true /\
  botActionsSection p' = botActionsSection p /\
  session_state p' = Some UNAUTHENTICATED /\
  (exists message, get result "message" = Return message /\
                   statusText p' = text_of message) /\
  status_is_error p' /\
  uncaught p' = uncaught p.
Proof.
  intros Hbody Hstatus Hs H2.
  destruct (get_readable result "status" "message" _ Hstatus) as [message Hmsg].
  apply strict_eq_str_false in Hs. apply strict_eq_str_false in H2.
  destruct r as [okb body]. simpl in Hbody. subst body.
  unfold run, loginForm_submit, bind, lift, modify, fetch, json, updateStatus, ret. simpl.
  rewrite Hstatus. simpl. rewrite Hs, H2, Hmsg. simpl.
  unfold session_state. simpl. rewrite hidden_add, hidden_remove. simpl.
  repeat split; try reflexivity. exists message. split; reflexivity.
Qed.

(** X5. A challenge-code submission made in CHALLENGE_PENDING whose answer has
    status [success] hides the challenge form and shows the action surface:
    the page is AUTHENTICATED, the backend's message not an error. *)
Theorem twofa_success_authenticates
    (p : page) (fd : form_data) (r : response) (result : value) :
  session_state p = Some CHALLENGE_PENDING ->
  json_body r = Some result ->
  get result "status" = Return (VStr "success") ->
  let p' := run (twoFaForm_submit fd (Resolved r)) p in
  hidden (twoFaSection p') = true /\
  hidden (botActionsSection p') = false /\
  hidden (loginForm p') = true /\
  session_state p' = Some AUTHENTICATED /\
  (exists message, get result "message" = Return message /\
                   statusText p' = text_of message) /\
  ~ status_is_error p' /\
  uncaught p' = uncaught p.
Proof.
  intros Hstate Hbody Hstatus.
  destruct (get_readable result "status" "message" _ Hstatus) as [message Hmsg].
  assert (Hlogin : hidden (loginForm p) = true).
  { unfold session_state in Hstate.
    destruct (hidden (loginForm p)); [reflexivity|discriminate]. }
  destruct r as [okb body]. simpl in Hbody. subst body.
  unfold run, twoFaForm_submit, bind, lift, modify, fetch, json, updateStatus, ret. simpl.
  rewrite Hstatus. simpl. rewrite Hmsg. simpl.
  unfold session_state, status_is_error. simpl.
  rewrite Hlogin, hidden_add, hidden_remove. simpl.
  repeat split; try reflexivity.
  - exists message. split; reflexivity.
  - intros H. symmetry in H. exact (status_class_differ H).
Qed.

(** ** What a callback leaves alone *)

Lemma run_snd {B} (f : page -> B) (m : M unit) (p : page) :
  (forall u q, f (set_uncaught u q) = f q) -> f (run m p) = f (snd (m p)).
Proof.
  intros Hu. unfold run. destruct (m p) as [[a|e] p']; simpl; [reflexivity|apply Hu].
Qed.

Lemma sent_fetch_then {A} (u me : string) (b : form_data) (net : fetch_outcome)
    (k : response -> M A) (p : page) :
  (forall r, keeps sent (k r)) ->
  sent (snd (bind (fetch u me b net) k p)) = sent p ++ [Request u me b].
Proof.
  intros Hk. unfold bind, fetch, modify, throw, ret. simpl.
  destruct net as [|r]; simpl; [reflexivity|]. rewrite Hk. reflexivity.
Qed.

Ltac unfold_script :=
  unfold check_status, loginForm_submit, twoFaForm_submit, getListForm_submit,
    sendDmForm_submit, onmessage, onerror, appendLog, updateStatus, fetch, json.

(** X6. Every submission of the credential, challenge or contact-list form
    issues exactly one request, whatever the network then does with it: a
    POST to the form's endpoint whose body is the form's entries, unchanged
    and in order.  The status probe issues exactly one GET of [/status]. *)
Theorem each_submit_sends_one_request
    (p : page) (fd : form_data) (net : fetch_outcome) :
  sent (run (loginForm_submit fd net) p) = sent p ++ [Request "/login" "POST" fd] /\
  sent (run (twoFaForm_submit fd net) p)
  = sent p ++ [Request "/complete-2fa" "POST" fd] /\
  sent (run (getListForm_submit fd net) p)
  = sent p ++ [Request "/get-list" "POST" fd] /\
  sent (run (check_status net) p) = sent p ++ [Request "/status" "GET" []].
Proof.
  assert (Hprobe : sent (run (check_status net) p)
                   = sent p ++ [Request "/status" "GET" []]).
  { unfold run, check_status, catch, bind, lift, modify, fetch, json, updateStatus,
      ret, throw.
    destruct net as [|[okb [data|]]]; simpl; try reflexivity.
    destruct (get data "logged_in") as [v|e]; simpl; [|reflexivity].
    destruct (truthy v); reflexivity. }
  repeat split; try exact Hprobe; rewrite (run_snd sent) by reflexivity.
  - unfold loginForm_submit, updateStatus.
    unfold bind at 1, modify at 1. rewrite sent_fetch_then; [reflexivity|].
    intros r. unfold json. keeps_tac.
  - unfold twoFaForm_submit, updateStatus.
    unfold bind at 1, modify at 1. rewrite sent_fetch_then; [reflexivity|].
    intros r. unfold json. keeps_tac.
  - unfold getListForm_submit, updateStatus.
    unfold bind at 1, modify at 1. unfold bind at 1, modify at 1.
    rewrite sent_fetch_then; [reflexivity|].
    intros r. unfold json. keeps_tac.
Qed.

(** The answers no listener can read: the request was rejected, the body is
    not JSON, or the body is JSON [null]; with the error each one raises. *)
Inductive unreadable : fetch_outcome -> error -> Prop :=
  | unreadable_rejected : unreadable Rejected FetchFailed
  | unreadable_not_json okb : unreadable (Resolved (Response okb None)) SyntaxError
  | unreadable_null okb : unreadable (Resolved (Response okb (Some VNull))) TypeError.

(** X7. When the answer to a submission cannot be read, each of the four
    listeners throws the corresponding error, which nobody catches; the three
    surfaces and the recipient field are as before, and the status line still
    shows the listener's in-progress text without the error flag. *)
Theorem unreadable_answer_is_uncaught
    (p : page) (fd : form_data) (net : fetch_outcome) (e : error) :
  unreadable net e ->
  forall m : M unit,
    m = loginForm_submit fd net \/ m = twoFaForm_submit fd net \/
    m = getListForm_submit fd net \/ m = sendDmForm_submit fd net ->
    let p' := run m p in
    uncaught p' = uncaught p ++ [e] /\
    loginForm p' = loginForm p /\
    twoFaSection p' = twoFaSection p /\
    botActionsSection p' = botActionsSection p /\
    recipientPks p' = recipientPks p /\
    statusClass p' = status_class false.
Proof.
  intros Hnet m Hm.
  destruct Hm as [-> | [-> | [-> | ->]]]; destruct Hnet as [|okb|okb];
    try (repeat split; fail);
    destruct okb; repeat split.
Qed.

(** X19. The listeners keep to their own part of the page: the two sign-in
    forms never touch the list area or the recipient field, the contact-list
    form never changes which surface is shown, and the bulk-message form
    changes neither the surfaces nor the list area nor the recipient field,
    whatever the answer. *)
Theorem listeners_keep_to_their_area
    (p : page) (fd : form_data) (net : fetch_outcome) :
  (let p' := run (loginForm_submit fd net) p in
   userListOutput p' = userListOutput p /\ recipientPks p' = recipientPks p) /\
  (let p' := run (twoFaForm_submit fd net) p in
   userListOutput p' = userListOutput p /\ recipientPks p' = recipientPks p /\
   loginForm p' = loginForm p) /\
  (let p' := run (getListForm_submit fd net) p in
   loginForm p' = loginForm p /\ twoFaSection p' = twoFaSection p /\
   botActionsSection p' = botActionsSection p) /\
  (let p' := run (sendDmForm_submit fd net) p in
   loginForm p' = loginForm p /\ twoFaSection p' = twoFaSection p /\
   botActionsSection p' = botActionsSection p /\
   userListOutput p' = userListOutput p /\ recipientPks p' = recipientPks p).
Proof.
  repeat split;
    (apply keeps_run; [|intros; reflexivity]);
    unfold_script; keeps_tac.
Qed.

Lemma deliver_keeps {B} (f : page -> B) (ev : channel_event) (p : page) :
  (forall l q, f (set_logOutput l q) = f q) ->
  (forall l q, f (set_console l q) = f q) ->
  (forall s q, f (set_eventSource s q) = f q) ->
  (forall u q, f (set_uncaught u q) = f q) ->
  f (deliver ev p) = f p.
Proof.
  intros Hl Hc Hs Hu.
  assert (Hm : forall payload, keeps f (onmessage payload)).
  { intros payload. unfold_script. keeps_tac.
    apply keeps_modify. intros q. apply Hl. }
  assert (He : keeps f onerror).
  { unfold_script. keeps_tac;
      apply keeps_modify; intros q; first [apply Hl|apply Hc|apply Hs]. }
  unfold deliver. destruct (eventSource p); destruct ev as [|payload|fatal];
    try reflexivity; try apply Hs;
    try (apply keeps_run; [apply Hm|exact Hu]);
    (rewrite keeps_run; [apply Hs|exact He|exact Hu]).
Qed.

(** X18. The log stream is on its own: whatever it delivers, and whatever
    [onmessage] or [onerror] make of it, the surfaces, the status line, the
    list area, the recipient field and the requests issued are as before. *)
Theorem log_stream_touches_only_the_log (p : page) (ev : channel_event) :
  let p' := deliver ev p in
  loginForm p' = loginForm p /\
  twoFaSection p' = twoFaSection p /\
  botActionsSection p' = botActionsSection p /\
  statusText p' = statusText p /\
  statusClass p' = statusClass p /\
  userListOutput p' = userListOutput p /\
  recipientPks p' = recipientPks p /\
  sent p' = sent p.
Proof. repeat split; apply deliver_keeps; intros; reflexivity. Qed.

(** ** What every callback preserves *)

(** [m] keeps the property [P] of the page, however it ends. *)
Definition preserves {A} (P : page -> Prop) (m : M A) : Prop :=
  forall p, P p -> P (snd (m p)).

Lemma preserves_pure {A} (P : page -> Prop) (c : completion A) : preserves P (lift c).
Proof. intros p H. exact H. Qed.

Lemma preserves_ret {A} (P : page -> Prop) (a : A) : preserves P (ret a).
Proof. intros p H. exact H. Qed.

Lemma preserves_throw {A} (P : page -> Prop) e : preserves P (@throw A e).
Proof. intros p H. exact H. Qed.

Lemma preserves_read {A} (P : page -> Prop) (g : page -> A) : preserves P (read g).
Proof. intros p H. exact H. Qed.

Lemma preserves_modify (P : page -> Prop) (g : page -> page) :
  (forall p, P p -> P (g p)) -> preserves P (modify g).
Proof. intros H p Hp. apply H. exact Hp. Qed.

Lemma preserves_bind {A B} (P : page -> Prop) (m : M A) (k : A -> M B) :
  preserves P m -> (forall a, preserves P (k a)) -> preserves P (bind m k).
Proof.
  intros Hm Hk p Hp. unfold bind. specialize (Hm p Hp).
  destruct (m p) as [[a|e] p']; simpl in *; [apply Hk|]; exact Hm.
Qed.

Lemma preserves_run (P : page -> Prop) (m : M unit) (p : page) :
  preserves P m -> (forall u q, P q -> P (set_uncaught u q)) -> P p -> P (run m p).
Proof.
  intros Hm Hu Hp. unfold run. specialize (Hm p Hp).
  destruct (m p) as [[a|e] p']; simpl in *; [|apply Hu]; exact Hm.
Qed.

(** Walks a listener down to its writes, which [tac] has to justify. *)
Ltac preserves_tac tac :=
  repeat first
    [ apply preserves_bind; [|intros ?]
    | apply preserves_ret | apply preserves_throw | apply preserves_pure
    | apply preserves_read
    | apply preserves_modify; intros ? ?; tac
    | match goal with
      | |- preserves _ (if ?b then _ else _) => destruct b
      | |- preserves _ (match ?x with _ => _ end) => destruct x
      end ].

Lemma step_extends_log (l : list log_line) (p : page) (e : event) :
  l `prefix_of` logOutput p -> l `prefix_of` logOutput (step p e).
Proof.
  intros Hl.
  destruct e as [net|fd net|fd net|fd net|fd net|v|ev];
    try (match goal with
         | |- _ `prefix_of` logOutput (step p ?e) =>
             destruct (forms_keep_log e p) as [Heq _];
             [intros; discriminate|rewrite Heq; exact Hl]
         end).
  simpl. unfold deliver.
  assert (Hm : forall payload q, l `prefix_of` logOutput q ->
                                 l `prefix_of` logOutput (run (onmessage payload) q)).
  { intros payload q Hq. apply preserves_run; [|intros ? ? H; exact H|exact Hq].
    unfold_script.
    preserves_tac ltac:(first [assumption | simpl; apply prefix_app_r; assumption]). }
  assert (He : forall q, l `prefix_of` logOutput q ->
                         l `prefix_of` logOutput (run onerror q)).
  { intros q Hq. apply preserves_run; [|intros ? ? H; exact H|exact Hq].
    unfold_script.
    preserves_tac ltac:(first [assumption | simpl; apply prefix_app_r; assumption]). }
  destruct (eventSource p); destruct ev as [|payload|fatal];
    first [exact Hl | apply Hm; exact Hl | apply He; exact Hl].
Qed.

(** X8. The log is append-only: whatever sequence of events the page goes
    through, the lines it showed before are still there, unchanged and in
    place, at the head of the log. *)
Theorem log_is_append_only (p : page) (es : list event) :
  logOutput p `prefix_of` logOutput (steps p es).
Proof.
  cut (forall l, l `prefix_of` logOutput p -> l `prefix_of` logOutput (steps p es)).
  { intros H. apply H. reflexivity. }
  revert p. induction es as [|e es IH]; intros p l Hl; [exact Hl|].
  unfold steps in *. simpl. apply IH. apply step_extends_log. exact Hl.
Qed.

Lemma step_keeps_actions_shown (p : page) (e : event) :
  (forall net, e <> StatusProbe net) ->
  hidden (botActionsSection p) = false ->
  hidden (botActionsSection (step p e)) = false.
Proof.
  intros Hne Hp.
  destruct e as [net|fd net|fd net|fd net|fd net|v|ev]; simpl.
  - exfalso. exact (Hne net eq_refl).
  - apply preserves_run; [|intros ? ? H; exact H|exact Hp]. unfold_script.
    preserves_tac ltac:(first [assumption | simpl; apply hidden_remove]).
  - apply preserves_run; [|intros ? ? H; exact H|exact Hp]. unfold_script.
    preserves_tac ltac:(first [assumption | simpl; apply hidden_remove]).
  - apply preserves_run; [|intros ? ? H; exact H|exact Hp]. unfold_script.
    preserves_tac ltac:(first [assumption | simpl; apply hidden_remove]).
  - apply preserves_run; [|intros ? ? H; exact H|exact Hp]. unfold_script.
    preserves_tac ltac:(first [assumption | simpl; apply hidden_remove]).
  - exact Hp.
  - rewrite (deliver_keeps botActionsSection) by (intros; reflexivity). exact Hp.
Qed.

(** X9. Once the action surface is shown, no form submission, no edit and
    no event of the log stream hides it again, whatever the answers are: only
    an answer to the status probe can. *)
Theorem action_surface_stays_shown (p : page) (es : list event) :
  Forall (fun e => forall net, e <> StatusProbe net) es ->
  hidden (botActionsSection p) = false ->
  hidden (botActionsSection (steps p es)) = false.
Proof.
  intros Hes. revert p. induction Hes as [|e es He _ IH]; intros p Hp; [exact Hp|].
  unfold steps in *. simpl. apply IH. apply step_keeps_actions_shown; assumption.
Qed.

(** ** Log events the script cannot use *)

(** X10. A log event whose payload is falsy, or whose [log] is missing or
    falsy ([null], [false], [0], the empty string), is skipped without a
    trace: the page is exactly as before, and no error is raised. *)
Theorem log_event_without_text_is_ignored (p : page) (data : value) :
  truthy data = false \/
  (exists l, get data "log" = Return l /\ truthy l = false) ->
  deliver (ChMessage (Some data)) p = p.
Proof.
  intros H. unfold deliver.
  assert (Hrun : run (onmessage (Some data)) p = p).
  { unfold run, onmessage, bind, lift, ret. simpl.
    destruct (truthy data) eqn:Ht; [|reflexivity].
    destruct H as [H|(l & Hl & Hf)]; [discriminate|].
    rewrite Hl. simpl. rewrite Hf. reflexivity. }
  destruct (eventSource p); [exact Hrun|exact Hrun|reflexivity].
Qed.

(** X11. On a live source, a payload that is not JSON makes [onmessage] throw
    a SyntaxError, and a truthy [log] that is a number, [true] or an object
    makes [appendLog] throw a TypeError at its first [includes]; either way
    the error is uncaught, no line is appended, and the source stays as it
    was, so later events are still delivered. *)
Theorem unusable_log_event_throws
    (p : page) (payload : option value) (e : error) :
  eventSource p <> CLOSED ->
  (payload = None /\ e = SyntaxError) \/
  (exists data l,
      payload = Some data /\ truthy data = true /\
      get data "log" = Return l /\ truthy l = true /\
      ((exists n, l = VNum n) \/ l = VBool true \/ (exists fs, l = VObj fs)) /\
      e = TypeError) ->
  let p' := deliver (ChMessage payload) p in
  logOutput p' = logOutput p /\
  uncaught p' = uncaught p ++ [e] /\
  eventSource p' = eventSource p.
Proof.
  intros Hlive H.
  assert (Hrun : logOutput (run (onmessage payload) p) = logOutput p /\
                 uncaught (run (onmessage payload) p) = uncaught p ++ [e] /\
                 eventSource (run (onmessage payload) p) = eventSource p).
  { destruct H as [[-> ->]|(data & l & -> & Hd & Hl & Ht & Hkind & ->)].
    - repeat split.
    - unfold run, onmessage, bind, lift, ret. simpl.
      rewrite Hd, Hl. simpl. rewrite Ht.
      destruct Hkind as [[n ->]|[->|[fs ->]]]; repeat split. }
  unfold deliver. simpl.
  destruct (eventSource p); [exact Hrun|exact Hrun|congruence].
Qed.

Lemma prefix_append (n post : string) : String.prefix n (n +:+ post) = true.
Proof.
  induction n as [|a n IH]; simpl; [destruct post; reflexivity|].
  destruct (ascii_dec a a); [exact IH|contradiction].
Qed.

Lemma prefix_inv (n h : string) :
  String.prefix n h = true -> exists post, h = n +:+ post.
Proof.
  revert h. induction n as [|a n IH]; intros h H; [exists h; reflexivity|].
  destruct h as [|b h]; simpl in H; [discriminate|].
  destruct (ascii_dec a b) as [->|]; [|discriminate].
  destruct (IH h H) as [post ->]. exists post. reflexivity.
Qed.

Lemma str_includes_of_prefix (n h : string) :
  String.prefix n h = true -> str_includes n h = true.
Proof. destruct h; cbn [str_includes]; intros ->; reflexivity. Qed.

(** [str_includes] is the substring test. *)
Lemma str_includes_spec (n h : string) :
  str_includes n h = true <-> exists pre post, h = pre +:+ n +:+ post.
Proof.
  split.
  - induction h as [|c h IH]; cbn [str_includes]; intros H.
    + rewrite orb_false_r in H. destruct (prefix_inv _ _ H) as [post Hp].
      exists "", post. exact Hp.
    + apply orb_true_iff in H. destruct H as [H|H].
      * destruct (prefix_inv _ _ H) as [post Hp]. exists "", post. exact Hp.
      * destruct (IH H) as (pre & post & ->). exists (String c pre), post. reflexivity.
  - intros (pre & post & ->). induction pre as [|c pre IH].
    + change ("" +:+ n +:+ post) with (n +:+ post).
      apply str_includes_of_prefix. apply prefix_append.
    + change (String c pre +:+ n +:+ post) with (String c (pre +:+ n +:+ post)).
      cbn [str_includes]. rewrite IH. apply orb_true_r.
Qed.

(** X12. [appendLog] on a string always appends exactly one line carrying that
    string, and styles it [log-error] exactly when ERROR or Failed occurs
    somewhere in the text, whatever other markers the text has. *)
Theorem error_markers_decide_the_error_style (s : string) (p : page) :
  exists c,
    appendLog (VStr s) p = (Return tt, set_logOutput (logOutput p ++ [LogLine c s]) p) /\
    (c = "log-error" <->
     (exists pre post, s = pre +:+ "ERROR" +:+ post) \/
     (exists pre post, s = pre +:+ "Failed" +:+ post)).
Proof.
  exists (classify s). split; [apply appendLog_str|].
  rewrite <- !str_includes_spec, <- orb_true_iff. unfold classify.
  destruct (str_includes "ERROR" s || str_includes "Failed" s); [tauto|].
  split; [|discriminate].
  destruct (str_includes "WARNING" s || str_includes "Rate limit" s); [discriminate|].
  destruct (str_includes "INFO" s || str_includes "Successfully" s); discriminate.
Qed.

(** ** More on the contact list *)

(** X15. A contact-list answer that is not ok, or whose status is neither
    [success] nor [warning], is an error whatever else the body holds (a
    [users] array included): the list area gets the red paragraph and the
    status line the failure text, both with the body's [detail], or with
    "Unknown error" when the detail is missing or falsy; the recipient field
    is not touched. *)
Theorem rejected_list_answer_is_an_error
    (p : page) (fd : form_data) (r : response) (result detail : value) :
  json_body r = Some result ->
  get result "detail" = Return detail ->
  ok r = false \/
  (exists status, get result "status" = Return status /\
                  status <> VStr "success" /\ status <> VStr "warning") ->
  let d := if truthy detail then detail else VStr "Unknown error" in
  let p' := run (getListForm_submit fd (Resolved r)) p in
  userListOutput p' = error_html d /\
  statusText p' = "Failed to fetch list: " +:+ ToString d /\
  status_is_error p' /\
  recipientPks p' = recipientPks p /\
  uncaught p' = uncaught p.
Proof.
  intros Hbody Hdetail Hwhy.
  destruct r as [okb body]. simpl in Hbody, Hwhy. subst body.
  assert (Hs : ok_with_status (Response okb (Some result)) result "success" = Return false /\
               ok_with_status (Response okb (Some result)) result "warning" = Return false).
  { unfold ok_with_status. simpl.
    destruct Hwhy as [->|(status & Hst & Hn1 & Hn2)]; [split; reflexivity|].
    apply strict_eq_str_false in Hn1. apply strict_eq_str_false in Hn2.
    destruct okb; [|split; reflexivity].
    rewrite Hst. simpl. rewrite Hn1, Hn2. split; reflexivity. }
  destruct Hs as [Hs Hw].
  unfold run, getListForm_submit, bind, lift, modify, fetch, json, updateStatus, ret. simpl.
  rewrite Hs. simpl. rewrite Hw. simpl.
  unfold errorDetail_of. rewrite Hdetail. simpl.
  repeat split; reflexivity.
Qed.

(** X16. The contact-list listener starts from a clean slate: what the list
    area and the status line showed before the submit has no influence on the
    page it leaves, whatever the answer. *)
Theorem list_fetch_replaces_previous_output
    (p : page) (fd : form_data) (net : fetch_outcome)
    (old_html old_text old_class : string) :
  run (getListForm_submit fd net)
      (set_status old_text old_class (set_userListOutput old_html p))
  = run (getListForm_submit fd net) p.
Proof. reflexivity. Qed.

Lemma map_items_throws (f : value -> completion value) (l : list value) :
  (forall x, f x = Throw TypeError \/ exists y, f x = Return y) ->
  Exists (fun x => f x = Throw TypeError) l ->
  map_items f l = Throw TypeError.
Proof.
  intros Hf. induction 1 as [x l Hx|x l _ IH]; simpl.
  - rewrite Hx. reflexivity.
  - destruct (Hf x) as [->|[y ->]]; simpl; [reflexivity|]. rewrite IH. reflexivity.
Qed.

(** X17. When an ok [success] answer has a [null] among its users, the status
    line has already announced the number of users when the listing throws a
    TypeError on that entry: the error is uncaught, the list area stays blank
    and the recipient field keeps its former value. *)
Theorem null_user_aborts_the_listing
    (p : page) (fd : form_data) (r : response) (result : value) (users : list value) :
  ok r = true ->
  json_body r = Some result ->
  get result "status" = Return (VStr "success") ->
  get result "users" = Return (VArr users) ->
  Exists (fun user => user = VNull \/ user = VUndefined) users ->
  let p' := run (getListForm_submit fd (Resolved r)) p in
  uncaught p' = uncaught p ++ [TypeError] /\
  userListOutput p' = "" /\
  recipientPks p' = recipientPks p /\
  statusText p'
  = "Successfully fetched " +:+ pretty (Z.of_nat (length users)) +:+ " users." /\
  ~ status_is_error p'.
Proof.
  intros Hok Hbody Hstatus Husers Hnull.
  destruct r as [okb body]. simpl in Hok, Hbody. subst okb body.
  assert (Hpos : (0 <? Z.of_nat (length users))%Z = true).
  { destruct Hnull; reflexivity. }
  assert (Hrows :
    map_items (fun user =>
                 let? pk := get user "pk" in
                 let? username := get user "username" in
                 let? full_name := get user "full_name" in
                 Return (VStr (user_html pk username full_name))) users
    = Throw TypeError).
  { apply map_items_throws.
    - intros x. destruct x; simpl; first [left; reflexivity|right; eexists; reflexivity].
    - eapply Exists_impl; [exact Hnull|]. intros x [->| ->]; reflexivity. }
  unfold run, getListForm_submit, bind, lift, modify, fetch, json, updateStatus,
    ok_with_status, ret. simpl.
  rewrite Hstatus. simpl. rewrite Husers. simpl. rewrite Hpos. simpl.
  rewrite Hrows. simpl.
  repeat split; try reflexivity.
  unfold status_is_error. simpl. intros H. symmetry in H. exact (status_class_differ H).
Qed.

(** X21. When the [users] of an ok [success] answer is not a list but a
    number, a boolean or an object without a [length], the listener does not
    throw: the status line reads "Successfully fetched undefined users." and
    the list area shows the empty-state paragraph. *)
Theorem users_without_length_read_as_empty
    (p : page) (fd : form_data) (r : response) (result users : value) :
  ok r = true ->
  json_body r = Some result ->
  get result "status" = Return (VStr "success") ->
  get result "users" = Return users ->
  (exists n, users = VNum n) \/ (exists b, users = VBool b) \/
  (exists fs, users = VObj fs /\ field "length" fs = VUndefined) ->
  let p' := run (getListForm_submit fd (Resolved r)) p in
  statusText p' = "Successfully fetched undefined users." /\
  userListOutput p' = empty_html /\
  recipientPks p' = recipientPks p /\
  uncaught p' = uncaught p.
Proof.
  intros Hok Hbody Hstatus Husers Hkind.
  destruct r as [okb body]. simpl in Hok, Hbody. subst okb body.
  unfold run, getListForm_submit, bind, lift, modify, fetch, json, updateStatus,
    ok_with_status, ret. simpl.
  rewrite Hstatus. simpl. rewrite Husers.
  destruct Hkind as [[n ->]|[[b ->]|(fs & -> & Hlen)]]; simpl.
  - destruct (negb (n =? 0)%Z); repeat split.
  - destruct b; repeat split.
  - rewrite Hlen. simpl. repeat split.
Qed.

(** ** More on bulk messages *)

(** X13. When the answer to a bulk-message submission is ok and has status
    [processing], the status line shows the backend's message, not as an
    error, and that is all: nothing is written to the log, the list area, the
    recipient field or the surfaces (progress comes over the log stream). *)
Theorem send_dm_processing_reports_the_start
    (p : page) (fd : form_data) (r : response) (result : value) :
  ok r = true ->
  json_body r = Some result ->
  get result "status" = Return (VStr "processing") ->
  let p' := run (sendDmForm_submit fd (Resolved r)) p in
  (exists message, get result "message" = Return message /\
                   statusText p' = text_of message) /\
  ~ status_is_error p' /\
  uncaught p' = uncaught p /\
  logOutput p' = logOutput p /\
  userListOutput p' = userListOutput p /\
  recipientPks p' = recipientPks p.
Proof.
  intros Hok Hbody Hstatus.
  destruct (get_readable result "status" "message" _ Hstatus) as [message Hmsg].
  destruct r as [okb body]. simpl in Hok, Hbody. subst okb body.
  unfold run, sendDmForm_submit, bind, lift, modify, fetch, json, updateStatus,
    ok_with_status, read, ret. simpl.
  rewrite Hstatus. simpl. rewrite Hmsg. simpl.
  repeat split; try reflexivity.
  - exists message. split; reflexivity.
  - unfold status_is_error. simpl. intros H. symmetry in H.
    exact (status_class_differ H).
Qed.

(** X14. Any other answer to a bulk-message submission (not ok, or a status
    other than [processing]) is reported as a failure to start, with the
    body's [detail], or with "Unknown error" when the detail is missing or
    falsy, as an error on the status line. *)
Theorem send_dm_other_answer_is_a_start_failure
    (p : page) (fd : form_data) (r : response) (result detail : value) :
  json_body r = Some result ->
  get result "detail" = Return detail ->
  ok r = false \/
  (exists status, get result "status" = Return status /\
                  status <> VStr "processing") ->
  let d := if truthy detail then detail else VStr "Unknown error" in
  let p' := run (sendDmForm_submit fd (Resolved r)) p in
  statusText p' = "Failed to start DM process: " +:+ ToString d /\
  status_is_error p' /\
  uncaught p' = uncaught p.
Proof.
  intros Hbody Hdetail Hwhy.
  destruct r as [okb body]. simpl in Hbody, Hwhy. subst body.
  assert (Hs : ok_with_status (Response okb (Some result)) result "processing"
               = Return false).
  { unfold ok_with_status. simpl.
    destruct Hwhy as [->|(status & Hst & Hn)]; [reflexivity|].
    apply strict_eq_str_false in Hn.
    destruct okb; [|reflexivity]. rewrite Hst. simpl. rewrite Hn. reflexivity. }
  unfold run, sendDmForm_submit, bind, lift, modify, fetch, json, updateStatus,
    read, ret. simpl.
  rewrite Hs. simpl. unfold errorDetail_of. rewrite Hdetail. simpl.
  repeat split; reflexivity.
Qed.

Lemma drop_name_twice (name : string) (fd : form_data) :
  drop_name name (drop_name name fd) = drop_name name fd.
Proof.
  unfold drop_name. induction fd as [|[k w] fd IH]; [reflexivity|]. simpl.
  destruct (String.eqb_spec k name) as [Hk|Hk]; simpl; [exact IH|].
  destruct (String.eqb_spec k name); [contradiction|]. simpl. f_equal. exact IH.
Qed.

Lemma drop_name_set (name v : string) (fd : form_data) :
  drop_name name (formData_set name v fd) = drop_name name fd.
Proof.
  induction fd as [|[k w] fd IH]; simpl.
  - unfold drop_name. simpl. rewrite String.eqb_refl. reflexivity.
  - destruct (String.eqb_spec k name) as [->|Hk].
    + unfold drop_name at 1 3. simpl. rewrite String.eqb_refl. simpl.
      apply drop_name_twice.
    + unfold drop_name in *. simpl.
      destruct (String.eqb_spec k name); [contradiction|]. simpl. f_equal. exact IH.
Qed.

(** X20. Overriding the recipient entry disturbs nothing else in the body of
    the bulk-message request: the form's entries under every other name are
    sent as they are, in their order. *)
Theorem send_dm_keeps_the_other_entries_in_order
    (p : page) (fd : form_data) (net : fetch_outcome) :
  exists b,
    sent (run (sendDmForm_submit fd net) p) = sent p ++ [Request "/send-dm" "POST" b] /\
    drop_name "recipient_pks" b = drop_name "recipient_pks" fd.
Proof.
  exists (formData_set "recipient_pks" (recipientPks p) fd).
  split; [apply sendDm_request|apply drop_name_set].
Qed.

(** ** The two-step sign-in as a whole *)

(** X22. The two sign-in steps compose: from any page, a credential submission
    answered [2fa_required] followed by a challenge-code submission answered
    [success] leaves the page AUTHENTICATED, with both forms hidden and the
    action surface shown, and two requests issued, in that order. *)
Theorem challenge_then_code_authenticates
    (p : page) (fd1 fd2 : form_data) (r1 r2 : response) (result1 result2 : value) :
  json_body r1 = Some result1 ->
  get result1 "status" = Return (VStr "2fa_required") ->
  json_body r2 = Some result2 ->
  get result2 "status" = Return (VStr "success") ->
  let p' := steps p [LoginSubmit fd1 (Resolved r1); TwoFaSubmit fd2 (Resolved r2)] in
  session_state p' = Some AUTHENTICATED /\
  hidden (loginForm p') = true /\
  hidden (twoFaSection p') = true /\
  hidden (botActionsSection p') = false /\
  sent p' = sent p ++ [Request "/login" "POST" fd1; Request "/complete-2fa" "POST" fd2] /\
  uncaught p' = uncaught p.
Proof.
  intros Hb1 Hs1 Hb2 Hs2.
  destruct (get_readable result1 "status" "message" _ Hs1) as [m1 Hm1].
  destruct (get_readable result2 "status" "message" _ Hs2) as [m2 Hm2].
  destruct r1 as [ok1 b1], r2 as [ok2 b2]. simpl in Hb1, Hb2. subst b1 b2.
  unfold steps. simpl.
  unfold run, loginForm_submit, twoFaForm_submit, bind, lift, modify, fetch, json,
    updateStatus, ret. simpl.
  rewrite Hs1. simpl. rewrite Hm1. simpl. rewrite Hs2. simpl. rewrite Hm2. simpl.
  unfold session_state. simpl. rewrite !hidden_add, hidden_remove. simpl.
  rewrite <- app_assoc. repeat split; reflexivity.
Qed.

End Script.

(** ** Instances *)

Lemma log_failure_appends_once_then_silence_witness :
  let p1 := step no_numeric_strings loaded (Channel (ChError false)) in
  let es := [Channel (log_event "INFO late"); Channel (ChError true);
             LoginSubmit credentials Rejected] in
  logOutput p1 = [LogLine "log-error" log_failure_line] /\
  eventSource p1 = CLOSED /\
  sent p1 = [] /\
  logOutput (steps no_numeric_strings p1 es) = logOutput p1 /\
  eventSource (steps no_numeric_strings p1 es) = CLOSED.
Proof.
  apply (log_failure_appends_once_then_silence no_numeric_strings loaded false).
  simpl. discriminate.
Defined.

Lemma log_stream_renders_nonempty_lines_in_order_witness :
  let p' := deliver_all loaded (map log_event ["INFO a"; ""; "Failed b"]) in
  logOutput p' = [LogLine "log-info" "INFO a"; LogLine "log-error" "Failed b"] /\
  map textContent (logOutput p') = ["INFO a"; "Failed b"] /\
  eventSource p' = CONNECTING.
Proof.
  apply (log_stream_renders_nonempty_lines_in_order loaded ["INFO a"; ""; "Failed b"]).
  simpl. discriminate.
Defined.

(** C2 as stated fails: of the three lines received, the empty one is not
    rendered, so the rendered sequence is not the arrival sequence. *)
Lemma empty_log_line_is_dropped :
  map textContent (logOutput (deliver_all loaded (map log_event ["a"; ""; "b"])))
  <> ["a"; ""; "b"].
Proof. vm_compute. discriminate. Qed.

Lemma login_2fa_required_shows_challenge_witness :
  let p' := run (loginForm_submit credentials
                   (answer [("status", VStr "2fa_required");
                            ("message", VStr "Enter the code")])) loaded in
  hidden (loginForm p') = true /\
  hidden (twoFaSection p') = false /\
  session_state p' = Some CHALLENGE_PENDING /\
  (exists message,
      get (VObj [("status", VStr "2fa_required"); ("message", VStr "Enter the code")])
          "message" = Return message /\
      statusText p' = text_of message) /\
  status_is_error p' /\
  uncaught p' = uncaught loaded.
Proof.
  apply (login_2fa_required_shows_challenge loaded credentials
           (Response true (Some (VObj [("status", VStr "2fa_required");
                                       ("message", VStr "Enter the code")])))
           (VObj [("status", VStr "2fa_required"); ("message", VStr "Enter the code")])).
  - reflexivity.
  - reflexivity.
Defined.

(** C4 as stated fails: the page does go to CHALLENGE_PENDING, but the
    backend's notice is put on the status line as an error. *)
Lemma challenge_notice_is_shown_as_error :
  let p' := run (loginForm_submit credentials
                   (answer [("status", VStr "2fa_required");
                            ("message", VStr "Enter the code")])) loaded in
  ~ (session_state p' = Some CHALLENGE_PENDING /\ ~ status_is_error p').
Proof. intros p' [_ Hnot]. apply Hnot. reflexivity. Qed.

Lemma twofa_failure_stays_challenge_pending_witness :
  let result := VObj [("status", VStr "error"); ("message", VStr "Wrong code")] in
  let p' := run (twoFaForm_submit [("code", "000000")]
                   (Resolved (Response true (Some result)))) challenged in
  session_state p' = Some CHALLENGE_PENDING /\
  hidden (twoFaSection p') = false /\
  hidden (loginForm p') = true /\
  (exists message, get result "message" = Return message /\
                   statusText p' = text_of message) /\
  status_is_error p' /\
  uncaught p' = uncaught challenged.
Proof.
  apply (twofa_failure_stays_challenge_pending challenged [("code", "000000")]
           (Response true (Some (VObj [("status", VStr "error");
                                       ("message", VStr "Wrong code")])))
           (VObj [("status", VStr "error"); ("message", VStr "Wrong code")])
           (VStr "error")).
  - vm_compute. reflexivity.
  - reflexivity.
  - reflexivity.
  - discriminate.
Defined.

Lemma list_warning_is_orange_in_list_and_error_on_status_witness :
  let p' := run (getListForm_submit no_numeric_strings [("target", "someone")]
                   (answer [("status", VStr "warning");
                            ("message", VStr "No followers")])) loaded in
  userListOutput p' = warning_html (VStr "No followers") /\
  (forall d, userListOutput p' <> error_html d) /\
  userListOutput p' <> empty_html /\
  (forall pk username full_name more,
      userListOutput p' <> user_html pk username full_name +:+ more) /\
  statusText p' = "No followers" /\
  status_is_error p' /\
  uncaught p' = uncaught loaded.
Proof.
  apply (list_warning_is_orange_in_list_and_error_on_status no_numeric_strings loaded
           [("target", "someone")]
           (Response true (Some (VObj [("status", VStr "warning");
                                       ("message", VStr "No followers")])))
           (VObj [("status", VStr "warning"); ("message", VStr "No followers")])
           (VStr "No followers")); reflexivity.
Defined.

(** C3 as stated fails: the warning is written in orange to the list area,
    but on the status line it goes through the error presentation. *)
Lemma list_warning_is_shown_as_error :
  let p' := run (getListForm_submit no_numeric_strings [("target", "someone")]
                   (answer [("status", VStr "warning");
                            ("message", VStr "No followers")])) loaded in
  ~ (userListOutput p' = warning_html (VStr "No followers") /\ ~ status_is_error p').
Proof. intros p' [_ Hnot]. apply Hnot. reflexivity. Qed.

Lemma empty_list_renders_empty_state_witness :
  let p' := run (getListForm_submit no_numeric_strings [("target", "someone")]
                   (answer [("status", VStr "success"); ("users", VArr [])])) loaded in
  userListOutput p' = "<p>No users found or list is empty.</p>" /\
  statusText p' = "Successfully fetched 0 users." /\
  ~ status_is_error p' /\
  uncaught p' = uncaught loaded /\
  (forall q fd2 r2 result2 d,
      fetch_fails r2 result2 d ->
      let q' := run (getListForm_submit no_numeric_strings fd2 (Resolved r2)) q in
      userListOutput q' = error_html d /\
      status_is_error q' /\
      userListOutput q' <> userListOutput p').
Proof.
  apply (empty_list_renders_empty_state no_numeric_strings loaded
           [("target", "someone")]
           (Response true (Some (VObj [("status", VStr "success");
                                       ("users", VArr [])])))
           (VObj [("status", VStr "success"); ("users", VArr [])])); reflexivity.
Defined.

Lemma success_without_users_throws_witness :
  let p' := run (getListForm_submit no_numeric_strings [("target", "someone")]
                   (answer [("status", VStr "success")])) loaded in
  uncaught p' = [TypeError] /\
  userListOutput p' = "" /\
  statusText p' = "Fetching user list..." /\
  recipientPks p' = "".
Proof.
  apply (success_without_users_throws no_numeric_strings loaded
           [("target", "someone")]
           (Response true (Some (VObj [("status", VStr "success")])))
           (VObj [("status", VStr "success")]) VUndefined).
  - reflexivity.
  - reflexivity.
  - reflexivity.
  - reflexivity.
  - left. reflexivity.
Defined.

Lemma fetched_pks_fill_recipient_field_witness :
  recipientPks
    (run (getListForm_submit no_numeric_strings [("target", "someone")]
            (answer [("status", VStr "success"); ("users", VArr three_contacts)]))
         loaded)
  = "1, 2, 3".
Proof.
  refine (proj1 (fetched_pks_fill_recipient_field no_numeric_strings loaded
                   [("target", "someone")]
                   (Response true (Some (VObj [("status", VStr "success");
                                               ("users", VArr three_contacts)])))
                   (VObj [("status", VStr "success"); ("users", VArr three_contacts)])
                   three_contacts [VNum 1; VNum 2; VNum 3] _ _ _ _ _ _)).
  - reflexivity.
  - reflexivity.
  - reflexivity.
  - reflexivity.
  - discriminate.
  - repeat constructor.
Defined.

Lemma send_dm_sends_the_field_as_it_stands_witness :
  let fetched := answer [("status", VStr "success"); ("users", VArr three_contacts)] in
  let q := steps no_numeric_strings loaded
             [GetListSubmit [("target", "someone")] fetched; OperatorEdit "1, 3"] in
  exists b,
    sent (step no_numeric_strings q
            (SendDmSubmit [("recipient_pks", "1, 2, 3"); ("message", "hi")] Rejected))
    = sent q ++ [Request "/send-dm" "POST" b] /\
    formData_getAll "recipient_pks" b = ["1, 3"].
Proof.
  apply (proj2 (send_dm_sends_the_field_as_it_stands no_numeric_strings loaded
                  [("recipient_pks", "1, 2, 3"); ("message", "hi")] Rejected)).
Defined.

(** A failing fetch exists: a 500 with a detail takes the error branch. *)
Example failing_fetch_example :
  fetch_fails (Response false (Some (VObj [("detail", VStr "Not logged in")])))
              (VObj [("detail", VStr "Not logged in")]) (VStr "Not logged in").
Proof. repeat split. Qed.

(** What the list area shows for the three contacts. *)
Example three_contacts_listing :
  userListOutput
    (run (getListForm_submit no_numeric_strings [("target", "someone")]
            (answer [("status", VStr "success"); ("users", VArr three_contacts)]))
         loaded)
  = "<p>PK: 1, Username: ann, Full Name: Ann A</p>" +:+
    "<p>PK: 2, Username: bob, Full Name: Bob B</p>" +:+
    "<p>PK: 3, Username: cy, Full Name: Cy C</p>".
Proof. vm_compute. reflexivity. Qed.

(** ** Instances of the further properties *)

Lemma status_probe_catches_everything_witness :
  let p' := run (check_status (Resolved (Response true None))) loaded in
  uncaught p' = [] /\
  statusText p' = "Could not connect to backend. Ensure the server is running." /\
  status_is_error p'.
Proof.
  pose proof (status_probe_catches_everything loaded (Resolved (Response true None)))
    as [Hu Hfail].
  destruct (Hfail eq_refl) as (Ht & He & _).
  split; [exact Hu|split; [exact Ht|exact He]].
Defined.

Lemma status_probe_picks_the_surface_witness :
  let p' := run (check_status (answer [("logged_in", VBool true)])) loaded in
  hidden (loginForm p') = true /\
  hidden (botActionsSection p') = false /\
  session_state p' = Some AUTHENTICATED.
Proof.
  pose proof (status_probe_picks_the_surface loaded
                (answer [("logged_in", VBool true)]) (VBool true) eq_refl)
    as (Hl & Ha & _ & _ & _ & Hs).
  split; [exact Hl|split; [exact Ha|]]. apply Hs. vm_compute. reflexivity.
Defined.

Lemma login_success_authenticates_witness :
  session_state
    (run (loginForm_submit credentials
            (answer [("status", VStr "success"); ("message", VStr "Welcome")])) loaded)
  = Some AUTHENTICATED.
Proof.
  apply (login_success_authenticates loaded credentials
           (Response true (Some (VObj [("status", VStr "success");
                                       ("message", VStr "Welcome")])))
           (VObj [("status", VStr "success"); ("message", VStr "Welcome")]));
    reflexivity.
Defined.

Lemma login_failure_shows_the_form_again_witness :
  session_state
    (run (loginForm_submit credentials
            (answer [("status", VStr "error"); ("message", VStr "Bad password")]))
         challenged)
  = Some UNAUTHENTICATED.
Proof.
  apply (login_failure_shows_the_form_again challenged credentials
           (Response true (Some (VObj [("status", VStr "error");
                                       ("message", VStr "Bad password")])))
           (VObj [("status", VStr "error"); ("message", VStr "Bad password")])
           (VStr "error")); first [reflexivity|discriminate].
Defined.

Lemma twofa_success_authenticates_witness :
  session_state
    (run (twoFaForm_submit [("code", "123456")]
            (answer [("status", VStr "success"); ("message", VStr "Welcome")]))
         challenged)
  = Some AUTHENTICATED.
Proof.
  apply (twofa_success_authenticates challenged [("code", "123456")]
           (Response true (Some (VObj [("status", VStr "success");
                                       ("message", VStr "Welcome")])))
           (VObj [("status", VStr "success"); ("message", VStr "Welcome")])).
  - vm_compute. reflexivity.
  - reflexivity.
  - reflexivity.
Defined.

Lemma unreadable_answer_is_uncaught_witness :
  uncaught (run (sendDmForm_submit [("message", "hi")]
                    (Resolved (Response true None))) loaded)
  = [SyntaxError].
Proof.
  apply (unreadable_answer_is_uncaught no_numeric_strings loaded [("message", "hi")]
           (Resolved (Response true None)) SyntaxError (unreadable_not_json true)
           (sendDmForm_submit [("message", "hi")] (Resolved (Response true None)))).
  right. right. right. reflexivity.
Defined.

Lemma action_surface_stays_shown_witness :
  let p := run (check_status (answer [("logged_in", VBool true)])) loaded in
  hidden (botActionsSection
            (steps no_numeric_strings p
               [LoginSubmit credentials
                  (answer [("status", VStr "error"); ("message", VStr "no")]);
                Channel (ChError true);
                SendDmSubmit [("message", "hi")] Rejected]))
  = false.
Proof.
  apply (action_surface_stays_shown no_numeric_strings).
  - repeat constructor; intros net; discriminate.
  - vm_compute. reflexivity.
Defined.

Lemma log_event_without_text_is_ignored_witness :
  deliver (ChMessage (Some (VObj [("level", VStr "INFO")]))) loaded = loaded.
Proof.
  apply (log_event_without_text_is_ignored loaded (VObj [("level", VStr "INFO")])).
  right. exists VUndefined. split; reflexivity.
Defined.

Lemma unusable_log_event_throws_witness :
  let p' := deliver (ChMessage (Some (VObj [("log", VNum 42)]))) loaded in
  logOutput p' = [] /\ uncaught p' = [TypeError] /\ eventSource p' = CONNECTING.
Proof.
  apply (unusable_log_event_throws loaded (Some (VObj [("log", VNum 42)])) TypeError).
  - simpl. discriminate.
  - right. exists (VObj [("log", VNum 42)]), (VNum 42).
    repeat split; try reflexivity. left. exists 42%Z. reflexivity.
Defined.

Lemma rejected_list_answer_is_an_error_witness :
  let p' := run (getListForm_submit no_numeric_strings [("target", "someone")]
                   (Resolved (Response false
                      (Some (VObj [("status", VStr "success");
                                   ("users", VArr three_contacts)]))))) loaded in
  userListOutput p' = error_html (VStr "Unknown error") /\
  statusText p' = "Failed to fetch list: Unknown error" /\
  status_is_error p' /\
  recipientPks p' = "" /\
  uncaught p' = [].
Proof.
  apply (rejected_list_answer_is_an_error no_numeric_strings loaded
           [("target", "someone")]
           (Response false (Some (VObj [("status", VStr "success");
                                        ("users", VArr three_contacts)])))
           (VObj [("status", VStr "success"); ("users", VArr three_contacts)])
           VUndefined).
  - reflexivity.
  - reflexivity.
  - left. reflexivity.
Defined.

Lemma null_user_aborts_the_listing_witness :
  let p' := run (getListForm_submit no_numeric_strings [("target", "someone")]
                   (answer [("status", VStr "success");
                            ("users", VArr [contact 1 "ann" "Ann A"; VNull])]))
                loaded in
  uncaught p' = [TypeError] /\
  userListOutput p' = "" /\
  recipientPks p' = "" /\
  statusText p' = "Successfully fetched 2 users." /\
  ~ status_is_error p'.
Proof.
  apply (null_user_aborts_the_listing no_numeric_strings loaded [("target", "someone")]
           (Response true (Some (VObj [("status", VStr "success");
                                       ("users", VArr [contact 1 "ann" "Ann A"; VNull])])))
           (VObj [("status", VStr "success");
                  ("users", VArr [contact 1 "ann" "Ann A"; VNull])])
           [contact 1 "ann" "Ann A"; VNull]).
  - reflexivity.
  - reflexivity.
  - reflexivity.
  - reflexivity.
  - apply Exists_cons_tl. apply Exists_cons_hd. left. reflexivity.
Defined.

Lemma users_without_length_read_as_empty_witness :
  let p' := run (getListForm_submit no_numeric_strings [("target", "someone")]
                   (answer [("status", VStr "success"); ("users", VObj [])])) loaded in
  statusText p' = "Successfully fetched undefined users." /\
  userListOutput p' = empty_html /\
  recipientPks p' = "" /\
  uncaught p' = [].
Proof.
  apply (users_without_length_read_as_empty no_numeric_strings loaded
           [("target", "someone")]
           (Response true (Some (VObj [("status", VStr "success"); ("users", VObj [])])))
           (VObj [("status", VStr "success"); ("users", VObj [])]) (VObj [])).
  - reflexivity.
  - reflexivity.
  - reflexivity.
  - reflexivity.
  - right. right. exists []. split; reflexivity.
Defined.

Lemma send_dm_processing_reports_the_start_witness :
  let p' := run (sendDmForm_submit [("message", "hi")]
                   (answer [("status", VStr "processing");
                            ("message", VStr "Started")])) loaded in
  statusText p' = "Started" /\ ~ status_is_error p'.
Proof.
  pose proof (send_dm_processing_reports_the_start loaded [("message", "hi")]
                (Response true (Some (VObj [("status", VStr "processing");
                                            ("message", VStr "Started")])))
                (VObj [("status", VStr "processing"); ("message", VStr "Started")])
                eq_refl eq_refl eq_refl) as ((message & Hm & Ht) & He & _).
  split; [|exact He]. injection Hm as <-. exact Ht.
Defined.

Lemma send_dm_other_answer_is_a_start_failure_witness :
  let p' := run (sendDmForm_submit [("message", "hi")]
                   (Resolved (Response false
                      (Some (VObj [("detail", VStr "Not logged in")]))))) loaded in
  statusText p' = "Failed to start DM process: Not logged in" /\
  status_is_error p' /\
  uncaught p' = [].
Proof.
  apply (send_dm_other_answer_is_a_start_failure loaded [("message", "hi")]
           (Response false (Some (VObj [("detail", VStr "Not logged in")])))
           (VObj [("detail", VStr "Not logged in")]) (VStr "Not logged in")).
  - reflexivity.
  - reflexivity.
  - left. reflexivity.
Defined.

Lemma challenge_then_code_authenticates_witness :
  session_state
    (steps no_numeric_strings loaded
       [LoginSubmit credentials
          (answer [("status", VStr "2fa_required"); ("message", VStr "Enter the code")]);
        TwoFaSubmit [("code", "123456")]
          (answer [("status", VStr "success"); ("message", VStr "Welcome")])])
  = Some AUTHENTICATED.
Proof.
  apply (challenge_then_code_authenticates no_numeric_strings loaded credentials
           [("code", "123456")]
           (Response true (Some (VObj [("status", VStr "2fa_required");
                                       ("message", VStr "Enter the code")])))
           (Response true (Some (VObj [("status", VStr "success");
                                       ("message", VStr "Welcome")])))
           (VObj [("status", VStr "2fa_required"); ("message", VStr "Enter the code")])
           (VObj [("status", VStr "success"); ("message", VStr "Welcome")]));
    reflexivity.
Defined.
